(** * HTML guideline validator: rules, orchestrator, aggregation, reporters

    A shallow embedding of the validator under
    [skills/guideline/scripts]: the three built-in rules
    ([rules/basic_structure.py], [rules/meta_tags.py],
    [rules/language_consistency.py]), the orchestrator ([validate.py]),
    and the JSON and HTML reporters ([reporters/json_reporter.py],
    [reporters/html_reporter.py]), followed by the properties proved
    about them.

    Python strings are modelled as Rocq [string]s (byte sequences; the
    case conversions below act on ASCII letters), Python integers as [Z],
    dictionaries keyed by rule id as [gmap string _], Python sets of
    paths as [gset string]. *)

From Stdlib Require Import ZArith String Ascii List Bool Lia.
From Stdlib Require Import DecimalString.
From Stdlib Require Import Sorting.Sorted.
From stdpp Require Import base gmap sets list strings.

Local Open Scope string_scope.
Local Open Scope Z_scope.
Local Open Scope list_scope.

Set Warnings "-register-all,-clear-no-such-hyp".

(* ===================================================================== *)
(** ** Python string primitives used by the sources *)
(* ===================================================================== *)

Module Py.

(** [c.lower()] on one ASCII character. *)
Definition lower_ascii (c : ascii) : ascii :=
  let n := nat_of_ascii c in
  if (Nat.leb 65 n && Nat.leb n 90)%bool then ascii_of_nat (n + 32) else c.

(** [c.upper()] on one ASCII character. *)
Definition upper_ascii (c : ascii) : ascii :=
  let n := nat_of_ascii c in
  if (Nat.leb 97 n && Nat.leb n 122)%bool then ascii_of_nat (n - 32) else c.

(** [s.lower()] *)
Fixpoint lower (s : string) : string :=
  match s with
  | EmptyString => EmptyString
  | String c s' => String (lower_ascii c) (lower s')
  end.

(** [s.upper()] *)
Fixpoint upper (s : string) : string :=
  match s with
  | EmptyString => EmptyString
  | String c s' => String (upper_ascii c) (upper s')
  end.

(** [needle in hay] on strings: substring test. *)
Fixpoint contains (needle hay : string) : bool :=
  String.prefix needle hay ||
  match hay with
  | EmptyString => false
  | String _ hay' => contains needle hay'
  end.

(** [s.replace(old, new)]: left-to-right, non-overlapping.  [skip]
    counts the characters of a match that remain to be dropped. *)
Fixpoint replace_from (old new : string) (skip : nat) (s : string) : string :=
  match s with
  | EmptyString => EmptyString
  | String c s' =>
      match skip with
      | S k => replace_from old new k s'
      | O =>
          if String.prefix old s
          then new +:+ replace_from old new (Nat.pred (String.length old)) s'
          else String c (replace_from old new O s')
      end
  end.

(** With an empty [old], Python puts [new] around every character. *)
Fixpoint intersperse_new (new s : string) : string :=
  match s with
  | EmptyString => new
  | String c s' => new +:+ String c (intersperse_new new s')
  end.

Definition replace (old new s : string) : string :=
  match old with
  | EmptyString => intersperse_new new s
  | _ => replace_from old new O s
  end.

(** [sep.join(l)] *)
Fixpoint join (sep : string) (l : list string) : string :=
  match l with
  | [] => EmptyString
  | [x] => x
  | x :: l' => x +:+ sep +:+ join sep l'
  end.

(** [s.split(c)] for a one-character separator: never the empty list. *)
Fixpoint split_on (sep : ascii) (s : string) : list string :=
  match s with
  | EmptyString => [EmptyString]
  | String c s' =>
      if Ascii.eqb c sep then EmptyString :: split_on sep s'
      else match split_on sep s' with
           | h :: t => String c h :: t
           | [] => [String c EmptyString]
           end
  end.

Definition newline : ascii := ascii_of_nat 10.
Definition dquote : ascii := ascii_of_nat 34.

(** One-character strings for building templates. *)
Definition nl : string := String newline EmptyString.
Definition dq : string := String dquote EmptyString.

(** [s.rstrip('\n')] *)
Fixpoint rstrip_nl (s : string) : string :=
  match s with
  | EmptyString => EmptyString
  | String c s' =>
      match rstrip_nl s' with
      | EmptyString => if Ascii.eqb c newline then EmptyString else String c EmptyString
      | r => String c r
      end
  end.

(** [c.isspace()] for an ASCII character: tab .. carriage return, the
    four separators and the space. *)
Definition isspace (c : ascii) : bool :=
  let n := nat_of_ascii c in
  (Nat.leb 9 n && Nat.leb n 13) || (Nat.leb 28 n && Nat.leb n 32).

(** A string holds the UTF-8 bytes of the text.  [space_width s] is the
    number of bytes of the white-space character [s] starts with, if it
    starts with one: an ASCII one, U+0085, U+00A0, U+1680, U+2000 to
    U+200A, U+2028, U+2029, U+202F, U+205F or U+3000, the characters for
    which [str.isspace()] holds. *)
Definition space_width (s : string) : option nat :=
  match s with
  | EmptyString => None
  | String c s1 =>
      if isspace c then Some 1%nat
      else
        match nat_of_ascii c, s1 with
        | 194%nat, String d _ =>
            let x := nat_of_ascii d in
            if Nat.eqb x 133 || Nat.eqb x 160 then Some 2%nat else None
        | 225%nat, String d (String e _) =>
            if Nat.eqb (nat_of_ascii d) 154 && Nat.eqb (nat_of_ascii e) 128
            then Some 3%nat else None
        | 226%nat, String d (String e _) =>
            let x := nat_of_ascii d in
            let y := nat_of_ascii e in
            if (Nat.eqb x 128
                && ((Nat.leb 128 y && Nat.leb y 138) || Nat.eqb y 168 || Nat.eqb y 169
                    || Nat.eqb y 175))
               || (Nat.eqb x 129 && Nat.eqb y 159)
            then Some 3%nat else None
        | 227%nat, String d (String e _) =>
            if Nat.eqb (nat_of_ascii d) 128 && Nat.eqb (nat_of_ascii e) 128
            then Some 3%nat else None
        | _, _ => None
        end
  end.

(** [s.lstrip()]; [skip] counts the bytes of a white-space character
    that remain to be dropped. *)
Fixpoint lstrip_from (skip : nat) (s : string) : string :=
  match s with
  | EmptyString => EmptyString
  | String c s' =>
      match skip with
      | S k => lstrip_from k s'
      | O =>
          match space_width s with
          | Some w => lstrip_from (Nat.pred w) s'
          | None => s
          end
      end
  end.

Definition lstrip (s : string) : string := lstrip_from O s.

(** The whole of [s] is white space. *)
Fixpoint all_space_from (skip : nat) (s : string) : bool :=
  match s with
  | EmptyString => Nat.eqb skip 0
  | String c s' =>
      match skip with
      | S k => all_space_from k s'
      | O =>
          match space_width s with
          | Some w => all_space_from (Nat.pred w) s'
          | None => false
          end
      end
  end.

(** [s.rstrip()]: cut where the rest is white space only. *)
Fixpoint rstrip (s : string) : string :=
  match s with
  | EmptyString => EmptyString
  | String c s' => if all_space_from O s then EmptyString else String c (rstrip s')
  end.

(** [s.strip()] *)
Definition strip (s : string) : string := rstrip (lstrip s).

(** Truth value of a string: [bool(s)]. *)
Definition truthy (s : string) : bool :=
  match s with EmptyString => false | _ => true end.

(** [str(n)] for an integer. *)
Definition str_int (n : Z) : string := NilZero.string_of_int (Z.to_int n).

(** [html.escape(s)] with its default [quote=True]: the five characters
    ampersand, less-than, greater-than, double and single quote become
    entities, every other character is kept. *)
Definition escape_char (c : ascii) : string :=
  if Ascii.eqb c "&" then "&amp;"
  else if Ascii.eqb c "<" then "&lt;"
  else if Ascii.eqb c ">" then "&gt;"
  else if Ascii.eqb c dquote then "&quot;"
  else if Ascii.eqb c "'" then "&#x27;"
  else String c EmptyString.

Fixpoint html_escape (s : string) : string :=
  match s with
  | EmptyString => EmptyString
  | String c s' => escape_char c +:+ html_escape s'
  end.

End Py.

(* ===================================================================== *)
(** ** Issue model and file results *)
(* ===================================================================== *)

Inductive Severity := SevError | SevWarning.

(** The string a severity is stored as in the issue dictionaries. *)
Definition severity_str (s : Severity) : string :=
  match s with SevError => "error" | SevWarning => "warning" end.

(** An issue dictionary: keys [rule], [severity], [message], [line]. *)
Record Issue := mkIssue {
  rule : string;
  severity : Severity;
  message : string;
  line : option Z
}.

Inductive Status := Passed | Failed | Error.

Definition status_str (s : Status) : string :=
  match s with Passed => "passed" | Failed => "failed" | Error => "error" end.

(** A result dictionary of [validate_file]: keys [path], [status],
    [issues] and, only after a failure, [error]. *)
Record FileResult := mkResult {
  path : string;
  status : Status;
  issues : list Issue;
  error : option string
}.

#[global] Instance Severity_eq_dec : EqDecision Severity.
Proof. solve_decision. Defined.
#[global] Instance Status_eq_dec : EqDecision Status.
Proof. solve_decision. Defined.
#[global] Instance Issue_eq_dec : EqDecision Issue.
Proof. solve_decision. Defined.

(* ===================================================================== *)
(** ** The parsed document, as the rules query it *)
(* ===================================================================== *)

(** The value of the [class] attribute: the parser hands it over as a
    list of tokens; the rules also accept a plain string. *)
Inductive AttrVal :=
| AStr (s : string)
| AList (l : list string).

(** A node of the parsed tree.  [NavigableString] stands for every
    node whose [name] is [None] (text, comment, doctype) and carries what
    [str(item)] returns; a [Tag] carries its name, its [class] attribute,
    its other (string-valued) attributes, its [sourceline] and its
    children. *)
Inductive Node :=
| NavigableString (text : string)
| Tag (name : string) (cls : option AttrVal) (attrs : list (string * string))
      (sourceline : option Z) (contents : list Node).

(** The soup itself: its top-level [contents]. *)
Definition Soup := list Node.

(** All nodes below and including [n], in document order. *)
Fixpoint descendants (n : Node) : list Node :=
  match n with
  | NavigableString _ => [n]
  | Tag _ _ _ _ cs => n :: flat_map descendants cs
  end.

Definition tag_name (n : Node) : option string :=
  match n with NavigableString _ => None | Tag nm _ _ _ _ => Some nm end.

Definition tag_class (n : Node) : option AttrVal :=
  match n with NavigableString _ => None | Tag _ c _ _ _ => c end.

Definition tag_attrs (n : Node) : list (string * string) :=
  match n with NavigableString _ => [] | Tag _ _ a _ _ => a end.

Definition tag_sourceline (n : Node) : option Z :=
  match n with NavigableString _ => None | Tag _ _ _ l _ => l end.

(** [tag.get(key)] for a string-valued attribute. *)
Fixpoint assoc (key : string) (l : list (string * string)) : option string :=
  match l with
  | [] => None
  | (k, v) :: l' => if String.eqb k key then Some v else assoc key l'
  end.

Definition get_attr (n : Node) (key : string) : option string :=
  assoc key (tag_attrs n).

Definition is_tag_named (nm : string) (n : Node) : bool :=
  match tag_name n with Some x => String.eqb x nm | None => false end.

(** [soup.find(name, ...)]: the first tag of that name, in document
    order, that satisfies the attribute filter. *)
Definition find_where (nm : string) (flt : Node -> bool) (soup : Soup) : option Node :=
  List.find (fun n => is_tag_named nm n && flt n) (flat_map descendants soup).

(** [soup.find(name)] *)
Definition find (nm : string) (soup : Soup) : option Node :=
  find_where nm (fun _ => true) soup.

(** [tag.string]: the only child when it is a string, looking through a
    chain of only children.  The library follows the chain by recursion;
    Python's limit on the depth of recursion, reached on a chain of about a
    thousand only children, is not part of this model. *)
Fixpoint node_string (n : Node) : option string :=
  match n with
  | NavigableString s => Some s
  | Tag _ _ _ _ [c] => node_string c
  | Tag _ _ _ _ _ => None
  end.

(** How an f-string renders an optional attribute value. *)
Definition fmt_opt (v : option string) : string :=
  match v with Some s => s | None => "None" end.

(* ===================================================================== *)
(** ** rules/basic_structure.py *)
(* ===================================================================== *)

(** The test of the doctype loop on one top-level item: its [name] is
    [None] and [str(item).lower()] mentions [html]. *)
Definition mentions_html (item : Node) : bool :=
  match item with
  | NavigableString s => Py.contains "html" (Py.lower s)
  | Tag _ _ _ _ _ => false
  end.

(** [html_tag.get('class', [])], joined with spaces when it is a list. *)
Definition class_string (tag : Node) : string :=
  match tag_class tag with
  | None => Py.join " " []
  | Some (AList l) => Py.join " " l
  | Some (AStr s) => s
  end.

Definition structure_issue (msg : string) (ln : option Z) : Issue :=
  mkIssue "basic-structure" SevError msg ln.

Definition valid_langs : list string := ["zh-hant"; "en"; "zh-hans"].
Definition lang_codes : list string := ["tc"; "en"; "sc"].

(** The checks on the [class] attribute of the root element. *)
Definition class_checks (html_class : string) (html_line : option Z) : list Issue :=
  if negb (Py.truthy html_class) then
    [structure_issue "HTML tag missing class attribute" html_line]
  else
    (if negb (Py.contains "no-js" html_class)
     then [structure_issue "HTML class should contain 'no-js'" html_line]
     else [])
    ++
    (if negb (existsb (fun lang => Py.contains lang html_class) lang_codes)
     then [structure_issue "HTML class should contain language code (tc/en/sc)" html_line]
     else []).

(** The checks on the [lang] attribute of the root element. *)
Definition lang_checks (lang_attr : option string) (html_line : option Z) : list Issue :=
  match lang_attr with
  | None => [structure_issue "HTML tag missing lang attribute" html_line]
  | Some l =>
      if negb (Py.truthy l) then
        [structure_issue "HTML tag missing lang attribute" html_line]
      else if negb (existsb (String.eqb l) valid_langs) then
        [structure_issue
           ("Invalid lang attribute '" +:+ l +:+ "'. Expected: zh-hant, en, or zh-hans")
           html_line]
      else []
  end.

Definition validate_basic_structure
  (soup : Soup) (file_path : string) (raw_lines : list string) : list Issue :=
  let issues :=
    if negb (existsb mentions_html soup)
    then [structure_issue "Missing DOCTYPE html declaration" None]
    else [] in
  match find "html" soup with
  | None => issues ++ [structure_issue "Missing <html> tag" None]
  | Some html_tag =>
      let html_line := tag_sourceline html_tag in
      issues
      ++ class_checks (class_string html_tag) html_line
      ++ lang_checks (get_attr html_tag "lang") html_line
  end.

(* ===================================================================== *)
(** ** rules/meta_tags.py *)
(* ===================================================================== *)

Definition meta_issue (sev : Severity) (msg : string) (ln : option Z) : Issue :=
  mkIssue "required-meta-tags" sev msg ln.

(** [charset=True]: the attribute is present. *)
Definition has_charset (n : Node) : bool :=
  match get_attr n "charset" with Some _ => true | None => false end.

(** [attrs={'http-equiv': lambda x: x and x.lower() == target}] *)
Definition http_equiv_is (target : string) (n : Node) : bool :=
  match get_attr n "http-equiv" with
  | Some x => Py.truthy x && String.eqb (Py.lower x) target
  | None => false
  end.

(** [attrs={'name': target}] *)
Definition name_is (target : string) (n : Node) : bool :=
  match get_attr n "name" with
  | Some x => String.eqb x target
  | None => false
  end.

(** [tag.get(key, '')] *)
Definition get_or_empty (n : Node) (key : string) : string :=
  match get_attr n key with Some v => v | None => EmptyString end.

(** A tag always has a [sourceline] attribute, so
    [getattr(tag, 'sourceline', head_line)] is the tag's own line. *)
Definition check_charset (soup : Soup) (head_line : option Z) : list Issue :=
  match find_where "meta" has_charset soup with
  | None => [meta_issue SevError "Missing required meta tag: charset" head_line]
  | Some charset_meta =>
      if negb (String.eqb (Py.lower (get_or_empty charset_meta "charset")) "utf-8")
      then [meta_issue SevError
              ("Charset should be 'utf-8', found '"
               +:+ fmt_opt (get_attr charset_meta "charset") +:+ "'")
              (tag_sourceline charset_meta)]
      else []
  end.

(** A directive that must be present (error) and whose [content] should
    contain a token (warning). *)
Definition check_directive (found : option Node) (missing_msg : string)
  (token shape_msg : string) (head_line : option Z) : list Issue :=
  match found with
  | None => [meta_issue SevError missing_msg head_line]
  | Some m =>
      if negb (Py.contains token (Py.lower (get_or_empty m "content")))
      then [meta_issue SevWarning shape_msg (tag_sourceline m)]
      else []
  end.

(** A directive that only has to be present. *)
Definition check_present (found : option Node) (missing_msg : string)
  (head_line : option Z) : list Issue :=
  match found with
  | None => [meta_issue SevError missing_msg head_line]
  | Some _ => []
  end.

Definition title_ok (soup : Soup) : bool :=
  match find "title" soup with
  | None => false
  | Some tag =>
      match node_string tag with
      | None => false
      | Some s => Py.truthy s && Py.truthy (Py.strip s)
      end
  end.

Definition check_content_tag (soup : Soup) (head_line : option Z) (tag_name : string)
  : list Issue :=
  if String.eqb tag_name "title" then
    if negb (title_ok soup)
    then [meta_issue SevError "Missing or empty <title> tag" head_line]
    else []
  else
    check_present (find_where "meta" (name_is tag_name) soup)
      ("Missing required meta tag: " +:+ tag_name) head_line.

Definition content_meta_tags : list string :=
  ["title"; "keywords"; "description"; "summary"].

Definition validate_meta_tags
  (soup : Soup) (file_path : string) (raw_lines : list string) : list Issue :=
  match find "head" soup with
  | None => [meta_issue SevError "Missing <head> tag" None]
  | Some head =>
      let head_line := tag_sourceline head in
      check_charset soup head_line
      ++ check_directive (find_where "meta" (http_equiv_is "x-ua-compatible") soup)
           "Missing required meta tag: http-equiv='x-ua-compatible'"
           "ie=edge" "x-ua-compatible content should contain 'ie=edge'" head_line
      ++ check_directive (find_where "meta" (name_is "viewport") soup)
           "Missing required meta tag: viewport"
           "width=device-width" "Viewport content should contain 'width=device-width'"
           head_line
      ++ check_present (find_where "meta" (http_equiv_is "cache-control") soup)
           "Missing cache control meta tag: Cache-Control" head_line
      ++ check_present (find_where "meta" (http_equiv_is "pragma") soup)
           "Missing cache control meta tag: Pragma" head_line
      ++ check_present (find_where "meta" (http_equiv_is "expires") soup)
           "Missing cache control meta tag: Expires" head_line
      ++ flat_map (check_content_tag soup head_line) content_meta_tags
  end.

(* ===================================================================== *)
(** ** rules/language_consistency.py *)
(* ===================================================================== *)

Definition backslash : string := String (ascii_of_nat 92) EmptyString.

(** [file_path.lower().replace('\\', '/')] *)
Definition normalise_path (file_path : string) : string :=
  Py.replace backslash "/" (Py.lower file_path).

(** The expected (class code, lang value) for a path, [None] when the
    path names no language directory. *)
Definition expected_language (file_path : string) : option (string * string) :=
  let path_lower := normalise_path file_path in
  if Py.contains "/chi/" path_lower then Some ("tc", "zh-hant")
  else if Py.contains "/eng/" path_lower then Some ("en", "en")
  else if Py.contains "/schi/" path_lower then Some ("sc", "zh-hans")
  else None.

(** [code.replace('tc', 'chi').replace('en', 'eng').replace('sc', 'schi')] *)
Definition directory_of (code : string) : string :=
  Py.replace "sc" "schi" (Py.replace "en" "eng" (Py.replace "tc" "chi" code)).

Definition language_issue (msg : string) (ln : option Z) : Issue :=
  mkIssue "language-consistency" SevError msg ln.

Definition validate_language_consistency
  (soup : Soup) (file_path : string) (raw_lines : list string) : list Issue :=
  match expected_language file_path with
  | None => []
  | Some (expected_lang_code, expected_lang_attr) =>
      match find "html" soup with
      | None => []
      | Some html_tag =>
          let html_line := tag_sourceline html_tag in
          let html_class := class_string html_tag in
          let lang_attr := get_attr html_tag "lang" in
          (if negb (Py.contains expected_lang_code html_class)
           then [language_issue
                   ("HTML class should contain '" +:+ expected_lang_code
                    +:+ "' for files in " +:+ directory_of expected_lang_code
                    +:+ "/ directory")
                   html_line]
           else [])
          ++
          (if negb (bool_decide (lang_attr = Some expected_lang_attr))
           then [language_issue
                   ("HTML lang attribute should be '" +:+ expected_lang_attr
                    +:+ "' for files in " +:+ directory_of expected_lang_code
                    +:+ "/ directory, found '" +:+ fmt_opt lang_attr +:+ "'")
                   html_line]
           else [])
      end
  end.

(* ===================================================================== *)
(** ** Exceptions and the rule registry (rules/__init__.py) *)
(* ===================================================================== *)

(** The exception classes the sources tell apart, each with the text
    [str(e)] yields.  [OSError] is what Python 3 calls [IOError];
    [FileNotFoundError] is one of its subclasses. *)
Inductive Exn :=
| FileNotFoundError (msg : string)
| UnicodeDecodeError (msg : string)
| OSError (msg : string)
| IndexError (msg : string)
| Exception (msg : string).

Definition exn_str (e : Exn) : string :=
  match e with
  | FileNotFoundError m | UnicodeDecodeError m | OSError m
  | IndexError m | Exception m => m
  end.

(** A call either returns or raises. *)
Inductive Outcome (A : Type) :=
| Returned (a : A)
| Raised (e : Exn).
Arguments Returned {A} a.
Arguments Raised {A} e.

#[global] Instance outcome_bind : MBind Outcome :=
  fun A B (f : A -> Outcome B) (x : Outcome A) =>
    match x with
    | Returned a => f a
    | Raised e => Raised e
    end.

(** A registry entry [(rule_id, description, func)].  A rule function is
    an arbitrary callable: it returns a list of issues or raises. *)
Record Rule := mkRule {
  rule_id : string;
  description : string;
  rule_func : Soup -> string -> list string -> Outcome (list Issue)
}.

(** Registration of a rule whose function is modelled as one that always
    returns (see [node_string] for the one place where the library can
    raise inside a built-in rule). *)
Definition validator_rule (id descr : string)
  (f : Soup -> string -> list string -> list Issue) : Rule :=
  mkRule id descr (fun soup file_path raw_lines => Returned (f soup file_path raw_lines)).

(** The registry after the three rule modules are imported, in import
    order. *)
Definition get_all_rules : list Rule :=
  [ validator_rule "basic-structure" "Check DOCTYPE and html tag" validate_basic_structure;
    validator_rule "required-meta-tags" "Check required meta tags" validate_meta_tags;
    validator_rule "language-consistency" "Check language consistency with file path"
      validate_language_consistency ].

(* ===================================================================== *)
(** ** validate.py *)
(* ===================================================================== *)

Section Validate.

(** [open(file_path, 'r', encoding='utf-8')] followed by [f.read()]. *)
Variable read_text : string -> Outcome string.
(** [BeautifulSoup(raw_html, 'html.parser')] *)
Variable BeautifulSoup : string -> Outcome Soup.

(** The loop over the registry.  It extends [result["issues"]] in place,
    so what earlier rules appended stays there when a later one raises. *)
Fixpoint run_rules (rules : list Rule) (soup : Soup) (file_path : string)
  (raw_lines : list string) (acc : list Issue) : list Issue * option Exn :=
  match rules with
  | [] => (acc, None)
  | r :: rules' =>
      match rule_func r soup file_path raw_lines with
      | Returned found => run_rules rules' soup file_path raw_lines (acc ++ found)
      | Raised e => (acc, Some e)
      end
  end.

(** The three [except] clauses, tried in order. *)
Definition on_exception (file_path : string) (acc : list Issue) (e : Exn) : FileResult :=
  match e with
  | FileNotFoundError _ =>
      mkResult file_path Error acc (Some ("File not found: " +:+ file_path))
  | UnicodeDecodeError m =>
      mkResult file_path Error acc (Some ("Encoding error: " +:+ m))
  | _ =>
      mkResult file_path Error acc (Some ("Parsing error: " +:+ exn_str e))
  end.

Definition validate_file (rules : list Rule) (file_path : string) : FileResult :=
  match read_text file_path with
  | Raised e => on_exception file_path [] e
  | Returned raw_html =>
      let raw_lines := Py.split_on Py.newline raw_html in
      match BeautifulSoup raw_html with
      | Raised e => on_exception file_path [] e
      | Returned soup =>
          match run_rules rules soup file_path raw_lines [] with
          | (acc, Some e) => on_exception file_path acc e
          | (acc, None) =>
              mkResult file_path (match acc with [] => Passed | _ => Failed end) acc None
          end
      end
  end.

Definition validate_files (rules : list Rule) (file_paths : list string) : list FileResult :=
  List.map (validate_file rules) file_paths.

End Validate.

(* ===================================================================== *)
(** ** reporters/json_reporter.py *)
(* ===================================================================== *)

(** The values handed to [json.dumps]. *)
Inductive JSON :=
| JNull
| JInt (n : Z)
| JStr (s : string)
| JList (l : list JSON)
| JDict (l : list (string * JSON)).

Definition issue_json (i : Issue) : JSON :=
  JDict [ ("rule", JStr (rule i));
          ("severity", JStr (severity_str (severity i)));
          ("message", JStr (message i));
          ("line", match line i with Some n => JInt n | None => JNull end) ].

(** [sum(1 for issue in issues if issue["severity"] == sev)] *)
Definition count_severity (sev : Severity) (l : list Issue) : Z :=
  Z.of_nat (length (List.filter (fun i => bool_decide (severity i = sev)) l)).

(** [result["status"] in ["failed", "error"]] *)
Definition reported (r : FileResult) : bool :=
  bool_decide (status r = Failed) || bool_decide (status r = Error).

(** The [file_data] dictionary of a reported result. *)
Definition file_data (r : FileResult) : JSON :=
  JDict ([ ("path", JStr (path r)); ("status", JStr (status_str (status r))) ]
         ++ (if bool_decide (status r = Error)
             then [ ("error", JStr (default "Unknown error" (error r))) ]
             else [ ("issues", JList (List.map issue_json (issues r))) ])).

(** The loop of [format_json_output]; the state is
    [(total_errors, total_warnings, files)]. *)
Fixpoint json_loop (results : list FileResult) (st : Z * Z * list JSON)
  : Z * Z * list JSON :=
  match results with
  | [] => st
  | result :: results' =>
      let '(total_errors, total_warnings, files) := st in
      if reported result then
        json_loop results'
          (total_errors + count_severity SevError (issues result),
           total_warnings + count_severity SevWarning (issues result),
           files ++ [file_data result])
      else json_loop results' st
  end.

(** [sum(1 for r in results if r["status"] == "passed")] *)
Definition count_passed (results : list FileResult) : Z :=
  Z.of_nat (length (List.filter (fun r => bool_decide (status r = Passed)) results)).

(** The [output] dictionary that [format_json_output] serialises with
    [json.dumps(output, indent=2)]. *)
Definition format_json_output (results : list FileResult) : JSON :=
  let total_files := Z.of_nat (length results) in
  let passed := count_passed results in
  let failed := total_files - passed in
  let '(total_errors, total_warnings, files) := json_loop results (0, 0, []) in
  JDict [ ("summary",
           JDict [ ("total_files", JInt total_files);
                   ("passed", JInt passed);
                   ("failed", JInt failed);
                   ("total_errors", JInt total_errors);
                   ("total_warnings", JInt total_warnings) ]);
          ("files", JList files) ].

(* ===================================================================== *)
(** ** reporters/html_reporter.py: snippets *)
(* ===================================================================== *)

(** [range(a, b)] *)
Definition range (a b : Z) : list Z :=
  List.map (fun k => a + Z.of_nat k) (seq 0 (Z.to_nat (b - a))).

(** [lines[i]]: a negative index counts from the end; outside the list
    it is an [IndexError]. *)
Definition index {A} (l : list A) (i : Z) : Outcome A :=
  let n := Z.of_nat (length l) in
  let j := if Z.ltb i 0 then i + n else i in
  if Z.ltb j 0 then Raised (IndexError "list index out of range")
  else match nth_error l (Z.to_nat j) with
       | Some x => Returned x
       | None => Raised (IndexError "list index out of range")
       end.

(** The loop that fills [snippet]. *)
Fixpoint snippet_loop (lines : list string) (idx : list Z) (snippet : list (Z * string))
  : Outcome (list (Z * string)) :=
  match idx with
  | [] => Returned snippet
  | i :: idx' =>
      ln ← index lines i;
      snippet_loop lines idx' (snippet ++ [(i + 1, Py.rstrip_nl ln)])
  end.

(** [except (FileNotFoundError, UnicodeDecodeError, IOError)] *)
Definition is_read_failure (e : Exn) : bool :=
  match e with
  | FileNotFoundError _ | UnicodeDecodeError _ | OSError _ => true
  | IndexError _ | Exception _ => false
  end.

Section Snippets.

(** [open(file_path, 'r', encoding='utf-8')] followed by [f.readlines()]:
    the lines of the file, each with its line end. *)
Variable readlines : string -> Outcome (list string).

Definition extract_code_snippet (file_path : string) (line_num context : Z)
  : Outcome (list (Z * string)) :=
  let body :=
    lines ← readlines file_path;
    let total_lines := Z.of_nat (length lines) in
    let start_line := Z.max 1 (line_num - context) in
    let end_line := Z.min total_lines (line_num + context) in
    snippet_loop lines (range (start_line - 1) end_line) [] in
  match body with
  | Returned snippet => Returned snippet
  | Raised e => if is_read_failure e then Returned [] else Raised e
  end.

End Snippets.

(** [n] spaces of template indentation. *)
Fixpoint sp (n : nat) : string :=
  match n with
  | O => EmptyString
  | S k => String (ascii_of_nat 32) (sp k)
  end.

(** An attribute value between double quotes. *)
Definition quoted (s : string) : string := Py.dq +:+ s +:+ Py.dq.

Definition snippet_line_html (error_line : Z) (severity : Severity)
  (marker : string) (entry : Z * string) : string :=
  let '(line_num, line_content) := entry in
  let escaped_content := Py.html_escape line_content in
  if Z.eqb line_num error_line then
    let line_class := "error-line " +:+ severity_str severity +:+ "-line" in
    ("<div class=" +:+ quoted line_class +:+ ">"
     +:+ "<span class=" +:+ quoted "line-marker" +:+ ">")
    +:+ marker
    +:+ ("</span>" +:+ "<span class=" +:+ quoted "line-number" +:+ ">")
    +:+ Py.str_int line_num
    +:+ ("</span>" +:+ "<span class=" +:+ quoted "line-content" +:+ ">")
    +:+ escaped_content
    +:+ ("</span>" +:+ "</div>")
  else
    ("<div class=" +:+ quoted "code-line" +:+ ">"
     +:+ "<span class=" +:+ quoted "line-number" +:+ ">")
    +:+ Py.str_int line_num
    +:+ ("</span>" +:+ "<span class=" +:+ quoted "line-content" +:+ ">")
    +:+ escaped_content
    +:+ ("</span>" +:+ "</div>").

Definition format_code_snippet_html (snippet : list (Z * string)) (error_line : Z)
  (severity : Severity) : string :=
  match snippet with
  | [] => EmptyString
  | _ =>
      let marker := if bool_decide (severity = SevError) then "❌" else "⚠" in
      Py.join Py.nl (List.map (snippet_line_html error_line severity marker) snippet)
  end.

(* ===================================================================== *)
(** ** reporters/html_reporter.py: grouping by rule *)
(* ===================================================================== *)

(** One entry of a rule's [failures] list. *)
Record Failure := mkFailure {
  failure_path : string;
  failure_issues : list Issue
}.

(** The dictionary kept per rule. *)
Record RuleAggregate := mkAggregate {
  agg_description : string;
  total_files : Z;
  passed_files : Z;
  failed_files : Z;
  failures : list Failure
}.

(** [grouped] after the initialisation loop: one entry per registered
    rule id (a later registration of the same id overwrites). *)
Definition init_grouped (n_results : Z) (all_rules : list Rule)
  : gmap string RuleAggregate :=
  fold_left (fun (grouped : gmap string RuleAggregate) r =>
               <[rule_id r := mkAggregate (description r) n_results 0 0 []]> grouped)
            all_rules ∅.

(** [{rule_id: set() for rule_id, _, _ in all_rules}] *)
Definition init_files_by_rule (all_rules : list Rule) : gmap string (gset string) :=
  fold_left (fun (m : gmap string (gset string)) r => <[rule_id r := ∅]> m)
            all_rules ∅.

(** [file_issues_by_rule], a dictionary in insertion order: appending an
    issue under its rule id creates the key at the end when it is new. *)
Fixpoint dict_append (k : string) (i : Issue) (d : list (string * list Issue))
  : list (string * list Issue) :=
  match d with
  | [] => [(k, [i])]
  | (k', l) :: d' =>
      if bool_decide (k' = k) then (k', l ++ [i]) :: d'
      else (k', l) :: dict_append k i d'
  end.

Definition file_issues_by_rule (l : list Issue) : list (string * list Issue) :=
  fold_left (fun d i => dict_append (rule i) i d) l [].

(** The state of the grouping loop: [grouped] and [files_by_rule]. *)
Definition GroupState : Type := gmap string RuleAggregate * gmap string (gset string).

(** One step of "Add to grouped structure".  Both dictionaries have the
    registered ids as their keys, so [files_by_rule[rule_id]] exists
    whenever [rule_id in grouped]. *)
Definition add_failure (file_path : string) (st : GroupState)
  (entry : string * list Issue) : GroupState :=
  let '(grouped, files_by_rule) := st in
  let '(rid, rule_issues) := entry in
  match grouped !! rid with
  | Some agg =>
      (<[rid := mkAggregate (agg_description agg) (total_files agg)
                  (passed_files agg) (failed_files agg)
                  (failures agg ++ [mkFailure file_path rule_issues])]> grouped,
       alter (fun s => {[file_path]} ∪ s) rid files_by_rule)
  | None => st
  end.

Definition group_step (st : GroupState) (result : FileResult) : GroupState :=
  if bool_decide (status result = Failed) then
    fold_left (add_failure (path result)) (file_issues_by_rule (issues result)) st
  else st.

(** "Calculate pass/fail counts" for one entry. *)
Definition set_counts (files_by_rule : gmap string (gset string))
  (rid : string) (agg : RuleAggregate) : option RuleAggregate :=
  let failed_count := Z.of_nat (size (default ∅ (files_by_rule !! rid))) in
  Some (mkAggregate (agg_description agg) (total_files agg)
          (total_files agg - failed_count) failed_count (failures agg)).

Definition group_issues_by_rule (results : list FileResult) (all_rules : list Rule)
  : gmap string RuleAggregate :=
  let st0 : GroupState :=
    (init_grouped (Z.of_nat (length results)) all_rules, init_files_by_rule all_rules) in
  let '(grouped, files_by_rule) := fold_left group_step results st0 in
  map_imap (set_counts files_by_rule) grouped.

(** The statistics [format_html_output] computes for its summary:
    [(total_files, rules_passed, rules_failed, total_errors, total_warnings)]. *)
Definition html_totals (sev : Severity) (results : list FileResult) : Z :=
  fold_left (fun total result =>
               if bool_decide (status result = Failed)
               then total + count_severity sev (issues result)
               else total)
            results 0.

Definition html_statistics (results : list FileResult) (all_rules : list Rule)
  : Z * Z * Z * Z * Z :=
  let total_files := Z.of_nat (length results) in
  let total_errors := html_totals SevError results in
  let total_warnings := html_totals SevWarning results in
  let grouped := group_issues_by_rule results all_rules in
  let rules_passed :=
    Z.of_nat (length (List.filter (fun kv => Z.eqb (failed_files (snd kv)) 0)
                        (map_to_list grouped))) in
  let rules_failed := Z.of_nat (size grouped) - rules_passed in
  (total_files, rules_passed, rules_failed, total_errors, total_warnings).

(* ===================================================================== *)
(** ** reporters/html_reporter.py: the rules section *)
(* ===================================================================== *)

(** The sort key [(failed_files == 0, rule_id)], compared as Python
    compares tuples, [False] before [True]. *)
Definition key_le (x y : string * RuleAggregate) : bool :=
  let bx := Z.eqb (failed_files (snd x)) 0 in
  let by_ := Z.eqb (failed_files (snd y)) 0 in
  if Bool.eqb bx by_ then String.leb (fst x) (fst y) else negb bx.

Fixpoint insert_sorted (x : string * RuleAggregate) (l : list (string * RuleAggregate))
  : list (string * RuleAggregate) :=
  match l with
  | [] => [x]
  | y :: l' => if key_le x y then x :: l else y :: insert_sorted x l'
  end.

(** [sorted(grouped.items(), key=...)].  The keys of a dictionary are
    distinct and the sort key ends with the rule id, so the result does not
    depend on the order in which the items are enumerated. *)
Definition sorted_rules (grouped : gmap string RuleAggregate)
  : list (string * RuleAggregate) :=
  fold_right insert_sorted [] (map_to_list grouped).

(** Python's truth test on an optional line number. *)
Definition known_line (l : option Z) : option Z :=
  match l with
  | Some n => if Z.eqb n 0 then None else Some n
  | None => None
  end.

Definition rule_header_html (rid : string) (data : RuleAggregate) : string :=
  let is_passed := Z.eqb (failed_files data) 0 in
  let status_class := if is_passed then "passed" else "failed" in
  let status_icon := if is_passed then "✓" else "✗" in
  (Py.nl +:+ sp 8 +:+ "<div class=" +:+ quoted ("rule-section " +:+ status_class) +:+ ">"
   +:+ Py.nl +:+ sp 12 +:+ "<div class=" +:+ quoted "rule-header"
   +:+ " onclick=" +:+ quoted "toggleRule(this)" +:+ ">"
   +:+ Py.nl +:+ sp 16 +:+ "<span class=" +:+ quoted "rule-status" +:+ ">"
   +:+ status_icon +:+ "</span>"
   +:+ Py.nl +:+ sp 16 +:+ "<span class=" +:+ quoted "rule-title" +:+ ">")
  +:+ Py.html_escape rid
  +:+ ("</span>"
       +:+ Py.nl +:+ sp 16 +:+ "<span class=" +:+ quoted "rule-description" +:+ ">")
  +:+ Py.html_escape (agg_description data)
  +:+ ("</span>"
       +:+ Py.nl +:+ sp 16 +:+ "<span class=" +:+ quoted "rule-stats" +:+ ">(")
  +:+ Py.str_int (passed_files data)
  +:+ "/"
  +:+ Py.str_int (total_files data)
  +:+ (" files passed)</span>"
       +:+ Py.nl +:+ sp 12 +:+ "</div>"
       +:+ Py.nl +:+ sp 8).

Definition issue_header_html (i : Issue) : string :=
  let severity_class :=
    if bool_decide (severity i = SevError) then "error" else "warning" in
  let severity_label := Py.upper (severity_str (severity i)) in
  (Py.nl +:+ sp 20 +:+ "<div class=" +:+ quoted ("issue-block " +:+ severity_class) +:+ ">"
   +:+ Py.nl +:+ sp 24 +:+ "<div class=" +:+ quoted "issue-header" +:+ ">"
   +:+ Py.nl +:+ sp 28 +:+ "<span class=" +:+ quoted "issue-severity" +:+ ">"
   +:+ severity_label +:+ "</span>"
   +:+ Py.nl +:+ sp 28 +:+ "<span class=" +:+ quoted "issue-message" +:+ ">")
  +:+ Py.html_escape (message i)
  +:+ ("</span>" +:+ Py.nl +:+ sp 28)
  +:+ match known_line (line i) with
      | Some n =>
          ("<span class=" +:+ quoted "issue-line" +:+ ">Line ")
          +:+ Py.str_int n +:+ "</span>"
      | None => EmptyString
      end
  +:+ (Py.nl +:+ sp 24 +:+ "</div>" +:+ Py.nl +:+ sp 20).

Section Report.

Variable readlines : string -> Outcome (list string).

(** What the loop over one failure's issues appends to [rules_html]. *)
Fixpoint issues_html (file_path : string) (l : list Issue) : Outcome (list string) :=
  match l with
  | [] => Returned []
  | i :: l' =>
      snippet_part ←
        match known_line (line i) with
        | Some n =>
            snippet ← extract_code_snippet readlines file_path n 5;
            match snippet with
            | [] => Returned []
            | _ =>
                Returned
                  [ ("<div class=" +:+ quoted "code-snippet" +:+ ">")
                    +:+ format_code_snippet_html snippet n (severity i)
                    +:+ "</div>" ]
            end
        | None => Returned []
        end;
      rest ← issues_html file_path l';
      Returned ([issue_header_html i] ++ snippet_part ++ ["</div>"] ++ rest)
  end.

(** What the loop over a rule's failures appends. *)
Fixpoint failures_html (l : list Failure) : Outcome (list string) :=
  match l with
  | [] => Returned []
  | failure :: l' =>
      let file_path := failure_path failure in
      blocks ← issues_html file_path (failure_issues failure);
      rest ← failures_html l';
      Returned ([ "<div class=" +:+ quoted "file-failures" +:+ ">";
                  "<h4>" +:+ Py.html_escape file_path +:+ "</h4>" ]
                ++ blocks ++ ["</div>"] ++ rest)
  end.

(** What the loop over the sorted rules appends. *)
Fixpoint rules_html (l : list (string * RuleAggregate)) : Outcome (list string) :=
  match l with
  | [] => Returned []
  | (rid, data) :: l' =>
      details ←
        (if Z.eqb (failed_files data) 0 then Returned []
         else
           inner ← failures_html (failures data);
           Returned ([ "<div class=" +:+ quoted "rule-details" +:+ ">" ]
                     ++ inner ++ ["</div>"]));
      rest ← rules_html l';
      Returned ([rule_header_html rid data] ++ details ++ ["</div>"] ++ rest)
  end.

Definition _generate_html_rules (grouped : gmap string RuleAggregate) : Outcome string :=
  body ← rules_html (sorted_rules grouped);
  Returned
    (Py.join Py.nl
       ([ ("<div class=" +:+ quoted "container" +:+ "><h2>Rules Detail</h2>") ]
        ++ body ++ ["</div>"])).

End Report.

(* ===================================================================== *)
(** ** reporters/terminal.py *)
(* ===================================================================== *)

(** The colour codes of colorama the formatter puts around its symbols
    and counts: [Fore.GREEN], [Fore.RED], [Fore.YELLOW], [Style.RESET_ALL]. *)
Record Palette := mkPalette {
  GREEN : string;
  RED : string;
  YELLOW : string;
  RESET_ALL : string
}.

(** The local variables of the loop of [format_console_output]. *)
Record ConsoleState := mkConsole {
  output : list string;
  total_errors : Z;
  total_warnings : Z;
  passed_count : Z;
  failed_count : Z
}.

Section Terminal.

Variable pal : Palette.

Definition tick : string := GREEN pal +:+ "✓" +:+ RESET_ALL pal.
Definition cross : string := RED pal +:+ "✗" +:+ RESET_ALL pal.
Definition warning_sign : string := YELLOW pal +:+ "⚠" +:+ RESET_ALL pal.

(** The line printed for one issue of a failed file. *)
Definition issue_line (i : Issue) : string :=
  let symbol := if bool_decide (severity i = SevError) then cross else warning_sign in
  match known_line (line i) with
  | Some n =>
      "  " +:+ symbol +:+ " [Line " +:+ Py.str_int n +:+ "] " +:+ message i
      +:+ " (" +:+ rule i +:+ ")"
  | None => "  " +:+ symbol +:+ " " +:+ message i +:+ " (" +:+ rule i +:+ ")"
  end.

(** What one iteration appends to [output]: the block of the file and
    the empty line after it. *)
Definition result_lines (result : FileResult) : list string :=
  match status result with
  | Passed =>
      [ tick +:+ " " +:+ path result;
        "  " +:+ tick +:+ " All validations passed" ]
  | Error =>
      [ cross +:+ " " +:+ path result;
        "  " +:+ cross +:+ " " +:+ default "Unknown error" (error result) ]
  | Failed =>
      (cross +:+ " " +:+ path result) :: List.map issue_line (issues result)
  end ++ [EmptyString].

Definition console_step (st : ConsoleState) (result : FileResult) : ConsoleState :=
  let file_errors := count_severity SevError (issues result) in
  let file_warnings := count_severity SevWarning (issues result) in
  mkConsole
    (output st ++ result_lines result)
    (total_errors st + file_errors)
    (total_warnings st + file_warnings)
    (if bool_decide (status result = Passed) then passed_count st + 1 else passed_count st)
    (if bool_decide (status result = Passed) then failed_count st else failed_count st + 1).

Definition console_loop (results : list FileResult) (base_path : string) : ConsoleState :=
  fold_left console_step results
    (mkConsole [Py.nl +:+ "Validating HTML files in: " +:+ base_path +:+ Py.nl] 0 0 0 0).




End Terminal.

(* ===================================================================== *)
(** ** validate.py: file discovery and exit code *)
(* ===================================================================== *)

(** [s.endswith(t)]: some suffix of [s] is [t]. *)
Fixpoint endswith (t s : string) : bool :=
  String.eqb s t ||
  match s with
  | EmptyString => false
  | String _ s' => endswith t s'
  end.

Section Discovery.

(** [os.walk(base_path)]: the triples [(root, dirs, files)] it yields. *)
Variable walk : string -> list (string * list string * list string).
(** [os.path.join] *)
Variable path_join : string -> string -> string.

(** The inner loop over the files of one directory. *)
Definition collect_html (html_files : list string)
  (entry : string * list string * list string) : list string :=
  let '(root, dirs, files) := entry in
  fold_left (fun acc file =>
               if endswith ".html" file then acc ++ [path_join root file] else acc)
            files html_files.

Definition find_html_files (base_path : string) : list string :=
  fold_left collect_html (walk base_path) [].

End Discovery.

(** [any(r["status"] in ["failed", "error"] for r in results)] *)
Definition has_failures (results : list FileResult) : bool :=
  existsb reported results.

(** The status [main] exits with after a run. *)
Definition exit_code (results : list FileResult) : Z :=
  if has_failures results then 1 else 0.

(* ===================================================================== *)
(** ** common/utils.py *)
(* ===================================================================== *)






(* ===================================================================== *)
(** ** reporters/html_reporter.py: the summary section *)
(* ===================================================================== *)

Definition _generate_html_summary (timestamp base_path : string)
  (total_files rules_passed rules_failed total_errors total_warnings : Z) : string :=
  (Py.nl +:+ sp 4 +:+ "<div class=" +:+ quoted "container" +:+ ">"
   +:+ Py.nl +:+ sp 8 +:+ "<header class=" +:+ quoted "report-header" +:+ ">"
   +:+ Py.nl +:+ sp 12 +:+ "<h1>Validation Report</h1>"
   +:+ Py.nl +:+ sp 12 +:+ "<p class=" +:+ quoted "timestamp" +:+ ">Generated: ")
  +:+ Py.html_escape timestamp
  +:+ ("</p>" +:+ Py.nl +:+ sp 12 +:+ "<p class=" +:+ quoted "path" +:+ ">Path: ")
  +:+ Py.html_escape base_path
  +:+ ("</p>"
       +:+ Py.nl +:+ sp 8 +:+ "</header>"
       +:+ Py.nl
       +:+ Py.nl +:+ sp 8 +:+ "<div class=" +:+ quoted "summary-grid" +:+ ">"
       +:+ Py.nl +:+ sp 12 +:+ "<div class=" +:+ quoted "summary-card" +:+ ">"
       +:+ Py.nl +:+ sp 16 +:+ "<div class=" +:+ quoted "summary-value" +:+ ">")
  +:+ Py.str_int total_files
  +:+ ("</div>"
       +:+ Py.nl +:+ sp 16 +:+ "<div class=" +:+ quoted "summary-label"
       +:+ ">Files Validated</div>"
       +:+ Py.nl +:+ sp 12 +:+ "</div>"
       +:+ Py.nl +:+ sp 12 +:+ "<div class="
       +:+ quoted ("summary-card "
                   +:+ (if Z.eqb rules_failed 0 then "success" else "error"))
       +:+ ">"
       +:+ Py.nl +:+ sp 16 +:+ "<div class=" +:+ quoted "summary-value" +:+ ">")
  +:+ Py.str_int rules_passed
  +:+ "/"
  +:+ Py.str_int (rules_passed + rules_failed)
  +:+ ("</div>"
       +:+ Py.nl +:+ sp 16 +:+ "<div class=" +:+ quoted "summary-label"
       +:+ ">Rules Passed</div>"
       +:+ Py.nl +:+ sp 12 +:+ "</div>"
       +:+ Py.nl +:+ sp 12 +:+ "<div class=" +:+ quoted "summary-card error" +:+ ">"
       +:+ Py.nl +:+ sp 16 +:+ "<div class=" +:+ quoted "summary-value" +:+ ">")
  +:+ Py.str_int total_errors
  +:+ ("</div>"
       +:+ Py.nl +:+ sp 16 +:+ "<div class=" +:+ quoted "summary-label"
       +:+ ">Errors</div>"
       +:+ Py.nl +:+ sp 12 +:+ "</div>"
       +:+ Py.nl +:+ sp 12 +:+ "<div class=" +:+ quoted "summary-card warning" +:+ ">"
       +:+ Py.nl +:+ sp 16 +:+ "<div class=" +:+ quoted "summary-value" +:+ ">")
  +:+ Py.str_int total_warnings
  +:+ ("</div>"
       +:+ Py.nl +:+ sp 16 +:+ "<div class=" +:+ quoted "summary-label"
       +:+ ">Warnings</div>"
       +:+ Py.nl +:+ sp 12 +:+ "</div>"
       +:+ Py.nl +:+ sp 8 +:+ "</div>"
       +:+ Py.nl +:+ sp 4 +:+ "</div>"
       +:+ Py.nl).

(* ===================================================================== *)
(** * Vocabulary of the statements *)
(* ===================================================================== *)

(** The sum of a severity count over a list of results. *)
Definition sum_severity (sev : Severity) (results : list FileResult) : Z :=
  fold_right (fun r total => count_severity sev (issues r) + total) 0 results.

(** A registry whose second rule raises, and the file system and parser
    of a run on one empty file. *)
Definition raising_rule : Rule :=
  mkRule "always-raises" "A rule with a defect"
    (fun _ _ _ => Raised (Exception "'NoneType' object has no attribute 'get'")).

Definition registry_with_defect : list Rule :=
  [ validator_rule "basic-structure" "Check DOCTYPE and html tag" validate_basic_structure;
    raising_rule ].

Definition empty_file (file_path : string) : Outcome string := Returned EmptyString.
Definition parse_empty (raw_html : string) : Outcome Soup := Returned [].

(** A document that satisfies the three built-in rules under a [/chi/]
    path. *)
Definition meta (attrs : list (string * string)) (ln : Z) : Node :=
  Tag "meta" None attrs (Some ln) [].

Definition conforming_document : Soup :=
  [ NavigableString "html";
    Tag "html" (Some (AList ["no-js"; "tc"])) [("lang", "zh-hant")] (Some 2)
      [ Tag "head" None [] (Some 3)
          [ meta [("charset", "utf-8")] 4;
            meta [("http-equiv", "x-ua-compatible"); ("content", "ie=edge")] 5;
            meta [("name", "viewport"); ("content", "width=device-width, initial-scale=1")] 6;
            meta [("http-equiv", "Cache-Control"); ("content", "no-cache")] 7;
            meta [("http-equiv", "Pragma"); ("content", "no-cache")] 8;
            meta [("http-equiv", "Expires"); ("content", "0")] 9;
            Tag "title" None [] (Some 10) [NavigableString "Promotion"];
            meta [("name", "keywords"); ("content", "promotion")] 11;
            meta [("name", "description"); ("content", "A promotion page")] 12;
            meta [("name", "summary"); ("content", "Promotion")] 13 ] ] ].

(** The line of a snippet with number [n], read from [lines]. *)
Definition snippet_entry (lines : list string) (n : Z) : Z * string :=
  (n, Py.rstrip_nl (nth (Z.to_nat (n - 1)) lines EmptyString)).

(** The issues of a list that carry a given rule id. *)
Definition issues_for (rid : string) (l : list Issue) : list Issue :=
  List.filter (fun i => bool_decide (rule i = rid)) l.

(** A failed result with at least one issue for the rule. *)
Definition fails_rule (rid : string) (r : FileResult) : bool :=
  bool_decide (status r = Failed)
  && match issues_for rid (issues r) with [] => false | _ => true end.

(** The set of paths of the failed results with an issue for the rule. *)
Definition failing_paths (rid : string) (results : list FileResult) : gset string :=
  list_to_set (List.map path (List.filter (fails_rule rid) results)).

(** A result, whatever its status, with at least one issue for the rule. *)
Definition has_issue_for (rid : string) (r : FileResult) : bool :=
  match issues_for rid (issues r) with [] => false | _ => true end.

(** The set of paths with at least one issue for the rule. *)
Definition paths_with_issue (rid : string) (results : list FileResult) : gset string :=
  list_to_set (List.map path (List.filter (has_issue_for rid) results)).

(** The invariant of a file result: only a failed result carries issues
    (a passed one has none, an error one has none). *)
Definition result_invariant (r : FileResult) : Prop :=
  issues r <> [] -> status r = Failed.

(** The failure entries a rule is expected to list, in input order. *)
Definition expected_failures (rid : string) (results : list FileResult) : list Failure :=
  List.map (fun r => mkFailure (path r) (issues_for rid (issues r)))
           (List.filter (fails_rule rid) results).

Definition add_failures (l : list Failure) (agg : RuleAggregate) : RuleAggregate :=
  mkAggregate (agg_description agg) (total_files agg) (passed_files agg)
    (failed_files agg) (failures agg ++ l).

(** Lookup in an insertion-ordered dictionary. *)
Fixpoint dict_lookup (k : string) (d : list (string * list Issue)) : option (list Issue) :=
  match d with
  | [] => None
  | (k', l) :: d' => if bool_decide (k' = k) then Some l else dict_lookup k d'
  end.

Definition registered (all_rules : list Rule) (rid : string) : bool :=
  bool_decide (rid ∈ List.map rule_id all_rules).

(** A result without the issues whose rule id is not registered. *)
Definition strip_unregistered (all_rules : list Rule) (r : FileResult) : FileResult :=
  mkResult (path r) (status r)
    (List.filter (fun i => registered all_rules (rule i)) (issues r)) (error r).

(** The issues of a result whose rule id is not registered. *)
Definition unregistered_issues (all_rules : list Rule) (r : FileResult) : list Issue :=
  List.filter (fun i => negb (registered all_rules (rule i))) (issues r).

(** [result["status"] == "failed"] *)
Definition is_failed (r : FileResult) : bool := bool_decide (status r = Failed).

(** The number of issues of a severity that failed results carry under
    rule ids that are not registered. *)
Definition unregistered_total (sev : Severity) (all_rules : list Rule)
  (results : list FileResult) : Z :=
  fold_right (fun r total => count_severity sev (unregistered_issues all_rules r) + total)
             0 (List.filter is_failed results).

(** The tags that occur in the templates of the rules section, each from
    its opening bracket to its closing one. *)
Definition report_tags : list string :=
  [ "<div class=" +:+ quoted "container" +:+ ">";
    "<h2>"; "</h2>"; "<h4>"; "</h4>"; "</div>"; "</span>";
    "<div class=" +:+ quoted "rule-section passed" +:+ ">";
    "<div class=" +:+ quoted "rule-section failed" +:+ ">";
    "<div class=" +:+ quoted "rule-header" +:+ " onclick=" +:+ quoted "toggleRule(this)" +:+ ">";
    "<span class=" +:+ quoted "rule-status" +:+ ">";
    "<span class=" +:+ quoted "rule-title" +:+ ">";
    "<span class=" +:+ quoted "rule-description" +:+ ">";
    "<span class=" +:+ quoted "rule-stats" +:+ ">";
    "<div class=" +:+ quoted "rule-details" +:+ ">";
    "<div class=" +:+ quoted "file-failures" +:+ ">";
    "<div class=" +:+ quoted "issue-block error" +:+ ">";
    "<div class=" +:+ quoted "issue-block warning" +:+ ">";
    "<div class=" +:+ quoted "issue-header" +:+ ">";
    "<span class=" +:+ quoted "issue-severity" +:+ ">";
    "<span class=" +:+ quoted "issue-message" +:+ ">";
    "<span class=" +:+ quoted "issue-line" +:+ ">";
    "<div class=" +:+ quoted "code-snippet" +:+ ">";
    "<div class=" +:+ quoted "error-line error-line" +:+ ">";
    "<div class=" +:+ quoted "error-line warning-line" +:+ ">";
    "<div class=" +:+ quoted "code-line" +:+ ">";
    "<span class=" +:+ quoted "line-marker" +:+ ">";
    "<span class=" +:+ quoted "line-number" +:+ ">";
    "<span class=" +:+ quoted "line-content" +:+ ">" ].

Definition starts_report_tag (s : string) : bool :=
  existsb (fun t => String.prefix t s) report_tags.

(** Every less-than sign of [s] opens one of the report's own tags. *)
Fixpoint tags_ok (s : string) : bool :=
  match s with
  | EmptyString => true
  | String c s' =>
      (if Ascii.eqb c "<" then starts_report_tag s else true) && tags_ok s'
  end.

(** The character [c] does not occur in [s]. *)
Fixpoint lacks (c : ascii) (s : string) : bool :=
  match s with
  | EmptyString => true
  | String a s' => negb (Ascii.eqb a c) && lacks c s'
  end.

(** Reading a file either succeeds or fails with one of the errors that
    [extract_code_snippet] handles. *)
Definition reads_fail_softly (readlines : string -> Outcome (list string)) : Prop :=
  forall file_path e, readlines file_path = Raised e -> is_read_failure e = true.

(** A run with one issue whose message is markup. *)
Definition script_results : list FileResult :=
  [ mkResult "chi/<b>.html" Failed
      [ mkIssue "basic-structure" SevError "<script>alert(1)</script>" None ] None ].

Definition no_files (file_path : string) : Outcome (list string) :=
  Raised (FileNotFoundError file_path).

(** The ids under which the rules of a registry are registered. *)
Definition registered_ids (all_rules : list Rule) : list string :=
  List.map rule_id all_rules.

(** A rule function that returns on this document. *)
Definition returns_on (soup : Soup) (file_path : string) (raw_lines : list string)
  (r : Rule) (found : list Issue) : Prop :=
  rule_func r soup file_path raw_lines = Returned found.

(** The description of the last rule registered under an id. *)
Definition last_description (rid : string) (all_rules : list Rule) : option string :=
  fold_left (fun acc r => if bool_decide (rule_id r = rid) then Some (description r) else acc)
            all_rules None.

(** [posixpath.join] on two components. *)
Definition posix_join (a b : string) : string :=
  if String.prefix "/" b then b
  else if bool_decide (a = EmptyString) || endswith "/" a then a +:+ b
  else a +:+ "/" +:+ b.

(** The tags that occur in the template of the summary section. *)
Definition summary_tags : list string :=
  [ "<div class=" +:+ quoted "container" +:+ ">";
    "<header class=" +:+ quoted "report-header" +:+ ">";
    "</header>"; "<h1>"; "</h1>"; "</p>"; "</div>";
    "<p class=" +:+ quoted "timestamp" +:+ ">";
    "<p class=" +:+ quoted "path" +:+ ">";
    "<div class=" +:+ quoted "summary-grid" +:+ ">";
    "<div class=" +:+ quoted "summary-card" +:+ ">";
    "<div class=" +:+ quoted "summary-card success" +:+ ">";
    "<div class=" +:+ quoted "summary-card error" +:+ ">";
    "<div class=" +:+ quoted "summary-card warning" +:+ ">";
    "<div class=" +:+ quoted "summary-value" +:+ ">";
    "<div class=" +:+ quoted "summary-label" +:+ ">" ].

(** Every less-than sign of [s] opens one of the given tags. *)
Fixpoint opens_only (tags : list string) (s : string) : bool :=
  match s with
  | EmptyString => true
  | String c s' =>
      (if Ascii.eqb c "<" then existsb (fun t => String.prefix t s) tags else true)
      && opens_only tags s'
  end.

(** A rule with no failing file. *)
Definition rule_passed (entry : string * RuleAggregate) : bool :=
  Z.eqb (failed_files (snd entry)) 0.

(** A list of at most [n] issues, at most [w] of them warnings, all
    carrying the rule id [rid]. *)
Definition bounded_issues (rid : string) (n w : nat) (l : list Issue) : Prop :=
  (length l <= n)%nat
  /\ (length (List.filter (fun i => bool_decide (severity i = SevWarning)) l) <= w)%nat
  /\ Forall (fun i => rule i = rid) l.

(** A path with every backslash turned into a slash. *)
Fixpoint slashify (s : string) : string :=
  match s with
  | EmptyString => EmptyString
  | String c s' =>
      String (if Ascii.eqb c (ascii_of_nat 92) then "/"%char else c) (slashify s')
  end.

(* ===================================================================== *)
(** * Properties *)
(* ===================================================================== *)

(** ** Document-shell structure rule *)

Lemma existsb_lang_codes (c : string) :
  existsb (fun lang => Py.contains lang c) lang_codes
  = Py.contains "tc" c || Py.contains "en" c || Py.contains "sc" c.
Proof. unfold lang_codes; simpl. rewrite orb_false_r, orb_assoc. reflexivity. Qed.

Lemma validate_basic_structure_root (soup : Soup) (file_path : string)
  (raw_lines : list string) (html_tag : Node) :
  find "html" soup = Some html_tag ->
  validate_basic_structure soup file_path raw_lines
  = (if existsb mentions_html soup then []
     else [structure_issue "Missing DOCTYPE html declaration" None])
    ++ class_checks (class_string html_tag) (tag_sourceline html_tag)
    ++ lang_checks (get_attr html_tag "lang") (tag_sourceline html_tag).
Proof.
  intros Hfind. unfold validate_basic_structure. rewrite Hfind.
  destruct (existsb mentions_html soup); reflexivity.
Qed.

Lemma class_checks_accepts (c : string) (ln : option Z) :
  class_checks c ln = [] <->
  c <> EmptyString /\ Py.contains "no-js" c = true
  /\ (Py.contains "tc" c = true \/ Py.contains "en" c = true \/ Py.contains "sc" c = true).
Proof.
  unfold class_checks. rewrite existsb_lang_codes.
  destruct c as [|a c]; simpl Py.truthy; cbv iota beta.
  - simpl. split; [discriminate | intros [H _]; congruence].
  - simpl negb at 1. cbv iota.
    destruct (Py.contains "no-js" (String a c)) eqn:Hjs;
      destruct (Py.contains "tc" (String a c)) eqn:Htc;
      destruct (Py.contains "en" (String a c)) eqn:Hen;
      destruct (Py.contains "sc" (String a c)) eqn:Hsc; simpl;
      split; intros H; try discriminate; try reflexivity;
      try (repeat split; auto; discriminate);
      destruct H as (_ & H1 & H2); try discriminate;
      destruct H2 as [H2 | [H2 | H2]]; discriminate.
Qed.

Lemma lang_checks_accepts (v : option string) (ln : option Z) :
  lang_checks v ln = [] <->
  v = Some "zh-hant" \/ v = Some "en" \/ v = Some "zh-hans".
Proof.
  unfold lang_checks, valid_langs. destruct v as [l|].
  - destruct (Py.truthy l) eqn:Ht; cbv [negb].
    + change (existsb (String.eqb l) ["zh-hant"; "en"; "zh-hans"])
        with (String.eqb l "zh-hant" || (String.eqb l "en" || (String.eqb l "zh-hans" || false))).
      destruct (String.eqb_spec l "zh-hant") as [E1 | E1];
      destruct (String.eqb_spec l "en") as [E2 | E2];
      destruct (String.eqb_spec l "zh-hans") as [E3 | E3]; cbv [orb];
      split; intros H; try reflexivity; try discriminate;
      first [ left; congruence | right; left; congruence | right; right; congruence
            | destruct H as [H | [H | H]]; congruence ].
    + destruct l; [| discriminate].
      split; [discriminate | intros [H | [H | H]]; discriminate].
  - split; [discriminate | intros [H | [H | H]]; discriminate].
Qed.

Lemma class_checks_length (c : string) (ln : option Z) :
  length (class_checks c ln)
  = if negb (Py.truthy c) then 1%nat
    else ((if Py.contains "no-js" c then 0 else 1)
          + (if existsb (fun lang => Py.contains lang c) lang_codes then 0 else 1))%nat.
Proof.
  unfold class_checks. destruct (negb (Py.truthy c)); [reflexivity |].
  rewrite length_app.
  destruct (Py.contains "no-js" c);
    destruct (existsb (fun lang => Py.contains lang c) lang_codes); reflexivity.
Qed.

Lemma class_checks_errors (c : string) (ln : option Z) :
  Forall (fun i => severity i = SevError /\ rule i = "basic-structure" /\ line i = ln)
         (class_checks c ln).
Proof.
  unfold class_checks. destruct (negb (Py.truthy c)).
  - repeat constructor.
  - apply Forall_app; split.
    + destruct (negb (Py.contains "no-js" c)); repeat constructor.
    + destruct (negb (existsb _ lang_codes)); repeat constructor.
Qed.

Lemma lang_checks_errors (v : option string) (ln : option Z) :
  Forall (fun i => severity i = SevError /\ rule i = "basic-structure" /\ line i = ln)
         (lang_checks v ln)
  /\ (length (lang_checks v ln) <= 1)%nat.
Proof.
  unfold lang_checks. destruct v as [l|].
  - destruct (negb (Py.truthy l)); [split; [repeat constructor | simpl; lia] |].
    destruct (negb (existsb (String.eqb l) valid_langs));
      split; try (repeat constructor); simpl; lia.
  - split; [repeat constructor | simpl; lia].
Qed.

(** C3, as the spec states it, fails on an empty document: the doctype
    check has already reported before the root element is looked for. *)
Lemma C3_missing_root_two_issues :
  find "html" [] = None
  /\ validate_basic_structure [] "index.html" [EmptyString]
     = [ structure_issue "Missing DOCTYPE html declaration" None;
         structure_issue "Missing <html> tag" None ].
Proof. split; reflexivity. Qed.

(** C3 (amended): when no root [html] element is found, the structure
    rule stops right after reporting it: the missing-root error is the last
    issue, no attribute check runs, and the only issue that can precede it
    is the missing-doctype error, present exactly when no top-level
    declaration mentions [html].  With a doctype the result is exactly the
    one missing-root issue. *)
Theorem C3_missing_root_short_circuit (soup : Soup) (file_path : string)
  (raw_lines : list string) :
  find "html" soup = None ->
  (existsb mentions_html soup = true ->
   validate_basic_structure soup file_path raw_lines
   = [ structure_issue "Missing <html> tag" None ])
  /\ (existsb mentions_html soup = false ->
      validate_basic_structure soup file_path raw_lines
      = [ structure_issue "Missing DOCTYPE html declaration" None;
          structure_issue "Missing <html> tag" None ]).
Proof.
  intros Hfind. unfold validate_basic_structure. rewrite Hfind.
  split; intros ->; reflexivity.
Qed.

Lemma C3_missing_root_short_circuit_witness :
  validate_basic_structure [NavigableString "html"] "index.html" ["<!DOCTYPE html>"]
  = [ structure_issue "Missing <html> tag" None ].
Proof.
  apply (C3_missing_root_short_circuit [NavigableString "html"] "index.html"
           ["<!DOCTYPE html>"]); reflexivity.
Defined.

(** C4, as the spec states it, fails: a root element whose class holds
    two locale tokens is accepted without any issue. *)
Lemma C4_two_locale_tokens_accepted :
  validate_basic_structure
    [ NavigableString "html";
      Tag "html" (Some (AList ["no-js"; "tc"; "en"])) [("lang", "en")] (Some 2) [] ]
    "index.html" ["<!DOCTYPE html>"; "<html class='no-js tc en' lang='en'></html>"]
  = [].
Proof. reflexivity. Qed.

(** C4 (amended): with a root [html] element, the structure rule's issues
    are the doctype check followed by the class checks and the lang checks.
    The class attribute (its tokens joined by spaces) is accepted exactly
    when it is non-empty, contains [no-js] and contains at least one of
    [tc], [en], [sc], all three as substrings; an empty or missing class
    gives one issue, otherwise each of the two violated conditions gives
    one.  The lang attribute is accepted exactly when it is one of
    [zh-hant], [en], [zh-hans], and gives at most one issue.  Every such
    issue has severity error and the root element's line. *)
Theorem C4_root_attribute_checks (soup : Soup) (file_path : string)
  (raw_lines : list string) (html_tag : Node) :
  find "html" soup = Some html_tag ->
  let c := class_string html_tag in
  let v := get_attr html_tag "lang" in
  let ln := tag_sourceline html_tag in
  validate_basic_structure soup file_path raw_lines
  = (if existsb mentions_html soup then []
     else [structure_issue "Missing DOCTYPE html declaration" None])
    ++ class_checks c ln ++ lang_checks v ln
  /\ (class_checks c ln = [] <->
      c <> EmptyString /\ Py.contains "no-js" c = true
      /\ (Py.contains "tc" c = true \/ Py.contains "en" c = true
          \/ Py.contains "sc" c = true))
  /\ length (class_checks c ln)
     = (if negb (Py.truthy c) then 1%nat
        else ((if Py.contains "no-js" c then 0 else 1)
              + (if existsb (fun lang => Py.contains lang c) lang_codes
                 then 0 else 1))%nat)
  /\ (lang_checks v ln = [] <->
      v = Some "zh-hant" \/ v = Some "en" \/ v = Some "zh-hans")
  /\ (length (lang_checks v ln) <= 1)%nat
  /\ Forall (fun i => severity i = SevError /\ rule i = "basic-structure" /\ line i = ln)
            (class_checks c ln ++ lang_checks v ln).
Proof.
  intros Hfind c v ln.
  split; [apply validate_basic_structure_root; exact Hfind |].
  split; [apply class_checks_accepts |].
  split; [apply class_checks_length |].
  split; [apply lang_checks_accepts |].
  split; [apply lang_checks_errors |].
  apply Forall_app; split; [apply class_checks_errors | apply lang_checks_errors].
Qed.

Lemma C4_root_attribute_checks_witness :
  let html_tag := Tag "html" (Some (AList ["no-js"; "tc"])) [("lang", "zh-hant")] (Some 2) [] in
  validate_basic_structure [NavigableString "html"; html_tag] "index.html" []
  = [] ++ class_checks "no-js tc" (Some 2) ++ lang_checks (Some "zh-hant") (Some 2).
Proof.
  intros html_tag.
  exact (proj1 (C4_root_attribute_checks [NavigableString "html"; html_tag]
                  "index.html" [] html_tag eq_refl)).
Defined.

(** ** Required-metadata rule *)

Lemma find_where_Some (nm : string) (flt : Node -> bool) (soup : Soup) (n : Node) :
  find_where nm flt soup = Some n -> is_tag_named nm n = true /\ flt n = true.
Proof.
  unfold find_where. intros H. apply find_some in H as [_ H].
  apply andb_true_iff in H. exact H.
Qed.

(** C5: with a [head] element, a missing charset declaration makes the
    metadata rule's first issue the missing-charset error; a declared value
    whose lower-case form is not [utf-8] makes it an error whose message
    quotes the value as found; for the value [UTF8] that message contains
    [UTF8]. *)
Theorem C5_charset_check (soup : Soup) (file_path : string) (raw_lines : list string)
  (head : Node) :
  find "head" soup = Some head ->
  let out := validate_meta_tags soup file_path raw_lines in
  (find_where "meta" has_charset soup = None ->
   exists rest,
     out = meta_issue SevError "Missing required meta tag: charset" (tag_sourceline head)
           :: rest)
  /\ (forall m, find_where "meta" has_charset soup = Some m ->
      exists v, get_attr m "charset" = Some v
        /\ (Py.lower v <> "utf-8" ->
            exists rest,
              out = meta_issue SevError
                      ("Charset should be 'utf-8', found '" +:+ v +:+ "'")
                      (tag_sourceline m)
                    :: rest))
  /\ (forall m, find_where "meta" has_charset soup = Some m ->
      get_attr m "charset" = Some "UTF8" ->
      exists i rest,
        out = i :: rest /\ rule i = "required-meta-tags" /\ severity i = SevError
        /\ message i = "Charset should be 'utf-8', found 'UTF8'"
        /\ Py.contains "UTF8" (message i) = true).
Proof.
  intros Hhead out. subst out. unfold validate_meta_tags. rewrite Hhead.
  unfold check_charset. split; [| split].
  - intros ->. eexists. reflexivity.
  - intros m Hm. rewrite Hm.
    destruct (find_where_Some _ _ _ _ Hm) as [_ Hc]. unfold has_charset in Hc.
    destruct (get_attr m "charset") as [v|] eqn:Hv; [| discriminate].
    exists v. split; [reflexivity |]. intros Hne.
    unfold get_or_empty. rewrite Hv.
    apply String.eqb_neq in Hne. rewrite Hne. simpl. eexists. reflexivity.
  - intros m Hm Hv. rewrite Hm. unfold get_or_empty. rewrite Hv. simpl.
    eexists. eexists. repeat split; reflexivity.
Qed.

Lemma C5_charset_check_witness :
  exists i rest,
    validate_meta_tags
      [ Tag "html" None [] (Some 1)
          [ Tag "head" None [] (Some 2)
              [ Tag "meta" None [("charset", "UTF8")] (Some 3) [] ] ] ]
      "index.html" []
    = i :: rest
    /\ rule i = "required-meta-tags" /\ severity i = SevError
    /\ message i = "Charset should be 'utf-8', found 'UTF8'"
    /\ Py.contains "UTF8" (message i) = true.
Proof.
  set (m := Tag "meta" None [("charset", "UTF8")] (Some 3) []).
  set (h := Tag "head" None [] (Some 2) [m]).
  exact (proj2 (proj2 (C5_charset_check [Tag "html" None [] (Some 1) [h]]
                         "index.html" [] h eq_refl)) m eq_refl eq_refl).
Defined.

(** ** Locale-path consistency rule *)

(** C6: a path with none of the three directory markers gives no issue;
    under a [/chi/] path, a root element whose class contains [tc] and
    whose lang is [en] gives exactly one issue, an error whose message
    names the expected [zh-hant] and the found [en]. *)
Theorem C6_language_consistency (soup : Soup) (file_path : string)
  (raw_lines : list string) :
  (Py.contains "/chi/" (normalise_path file_path) = false ->
   Py.contains "/eng/" (normalise_path file_path) = false ->
   Py.contains "/schi/" (normalise_path file_path) = false ->
   validate_language_consistency soup file_path raw_lines = [])
  /\ (forall html_tag,
        Py.contains "/chi/" (normalise_path file_path) = true ->
        find "html" soup = Some html_tag ->
        Py.contains "tc" (class_string html_tag) = true ->
        get_attr html_tag "lang" = Some "en" ->
        validate_language_consistency soup file_path raw_lines
        = [ mkIssue "language-consistency" SevError
              "HTML lang attribute should be 'zh-hant' for files in chi/ directory, found 'en'"
              (tag_sourceline html_tag) ]).
Proof.
  unfold validate_language_consistency, expected_language. split.
  - intros -> -> ->. reflexivity.
  - intros html_tag -> -> Hc ->. rewrite Hc. reflexivity.
Qed.

Lemma C6_language_consistency_witness :
  validate_language_consistency [] "promo/index.html" [] = []
  /\ validate_language_consistency
       [ Tag "html" (Some (AList ["no-js"; "tc"])) [("lang", "en")] (Some 2) [] ]
       "d01/k02/chi/index.html" []
     = [ mkIssue "language-consistency" SevError
           "HTML lang attribute should be 'zh-hant' for files in chi/ directory, found 'en'"
           (Some 2) ].
Proof.
  split.
  - apply (proj1 (C6_language_consistency [] "promo/index.html" [])); reflexivity.
  - apply (proj2 (C6_language_consistency
                    [ Tag "html" (Some (AList ["no-js"; "tc"])) [("lang", "en")] (Some 2) [] ]
                    "d01/k02/chi/index.html" [])
             (Tag "html" (Some (AList ["no-js"; "tc"])) [("lang", "en")] (Some 2) []));
      reflexivity.
Defined.

(** ** Orchestrator *)

Section ValidateFacts.

Variable read_text : string -> Outcome string.
Variable BeautifulSoup : string -> Outcome Soup.

Lemma run_rules_all_empty (rules : list Rule) (soup : Soup) (file_path : string)
  (raw_lines : list string) (acc : list Issue) :
  Forall (fun r => rule_func r soup file_path raw_lines = Returned []) rules ->
  run_rules rules soup file_path raw_lines acc = (acc, None).
Proof.
  intros H. revert acc. induction H as [| r rules Hr _ IH]; intros acc; simpl.
  - reflexivity.
  - rewrite Hr, app_nil_r. apply IH.
Qed.

Lemma run_rules_never_raising (rules : list Rule) (soup : Soup) (file_path : string)
  (raw_lines : list string) (acc : list Issue) :
  Forall (fun r => exists l, rule_func r soup file_path raw_lines = Returned l) rules ->
  exists l, run_rules rules soup file_path raw_lines acc = (l, None).
Proof.
  intros H. revert acc. induction H as [| r rules [l Hr] _ IH]; intros acc; simpl.
  - eauto.
  - rewrite Hr. apply IH.
Qed.

Lemma on_exception_error (file_path : string) (acc : list Issue) (e : Exn) :
  status (on_exception file_path acc e) = Error
  /\ issues (on_exception file_path acc e) = acc
  /\ is_Some (error (on_exception file_path acc e)).
Proof. destruct e; simpl; eauto. Qed.

(** When no rule of the registry raises, as is the case for the three
    built-in rules, an error result has no issues, carries an error
    text, and comes from a failed read or parse. *)
Lemma validate_file_error_without_rule_defect (rules : list Rule) (file_path : string) :
  (forall soup raw_lines,
      Forall (fun r => exists l, rule_func r soup file_path raw_lines = Returned l) rules) ->
  status (validate_file read_text BeautifulSoup rules file_path) = Error ->
  issues (validate_file read_text BeautifulSoup rules file_path) = []
  /\ is_Some (error (validate_file read_text BeautifulSoup rules file_path))
  /\ ((exists e, read_text file_path = Raised e)
      \/ (exists raw_html e,
             read_text file_path = Returned raw_html
             /\ BeautifulSoup raw_html = Raised e)).
Proof.
  intros Hrules. unfold validate_file.
  destruct (read_text file_path) as [raw_html | e] eqn:Hread.
  - destruct (BeautifulSoup raw_html) as [soup | e] eqn:Hparse.
    + destruct (run_rules_never_raising rules soup file_path
                  (Py.split_on Py.newline raw_html) [] (Hrules _ _)) as [l Hl].
      rewrite Hl. destruct l; simpl; discriminate.
    + intros _. destruct (on_exception_error file_path [] e) as (_ & Hi & He).
      split; [exact Hi |]. split; [exact He |]. right. eauto.
  - intros _. destruct (on_exception_error file_path [] e) as (_ & Hi & He).
    split; [exact Hi |]. split; [exact He |]. left. eauto.
Qed.

Lemma validate_file_no_issues (rules : list Rule) (file_path raw_html : string)
  (soup : Soup) :
  read_text file_path = Returned raw_html ->
  BeautifulSoup raw_html = Returned soup ->
  Forall (fun r => rule_func r soup file_path (Py.split_on Py.newline raw_html)
                   = Returned []) rules ->
  validate_file read_text BeautifulSoup rules file_path
  = mkResult file_path Passed [] None.
Proof.
  intros Hread Hparse Hrules. unfold validate_file.
  rewrite Hread, Hparse, (run_rules_all_empty _ _ _ _ _ Hrules). reflexivity.
Qed.

End ValidateFacts.

(** C2: on a registry whose second rule raises, [validate_file] does not
    let the exception through: it returns a result with status [error]
    that reports a parsing error and still holds the issues the first rule
    had appended. *)
Theorem C2_rule_exception_swallowed :
  validate_file empty_file parse_empty registry_with_defect "index.html"
  = mkResult "index.html" Error
      [ structure_issue "Missing DOCTYPE html declaration" None;
        structure_issue "Missing <html> tag" None ]
      (Some "Parsing error: 'NoneType' object has no attribute 'get'").
Proof. reflexivity. Qed.

(** ** Structured output *)

Lemma json_loop_spec (results : list FileResult) (e w : Z) (files : list JSON) :
  json_loop results (e, w, files)
  = (e + sum_severity SevError (List.filter reported results),
     w + sum_severity SevWarning (List.filter reported results),
     files ++ List.map file_data (List.filter reported results)).
Proof.
  revert e w files. induction results as [| r results IH]; intros e w files; simpl.
  - rewrite !Z.add_0_r, app_nil_r. reflexivity.
  - destruct (reported r); simpl.
    + rewrite IH, <- app_assoc, !Z.add_assoc. reflexivity.
    + apply IH.
Qed.

Lemma reported_iff (r : FileResult) :
  reported r = true <-> status r = Failed \/ status r = Error.
Proof.
  unfold reported. rewrite orb_true_iff, !bool_decide_eq_true. reflexivity.
Qed.

Lemma filter_reported_app (l1 l2 : list FileResult) (r : FileResult) :
  reported r = false ->
  List.filter reported (l1 ++ [r] ++ l2)
  = List.filter reported l1 ++ List.filter reported l2.
Proof.
  intros Hr. rewrite !List.filter_app. simpl. rewrite Hr. reflexivity.
Qed.

(** The [files] member of the output dictionary. *)
Lemma format_json_output_eq (results : list FileResult) :
  format_json_output results
  = JDict [ ("summary",
             JDict [ ("total_files", JInt (Z.of_nat (length results)));
                     ("passed", JInt (count_passed results));
                     ("failed", JInt (Z.of_nat (length results) - count_passed results));
                     ("total_errors",
                      JInt (sum_severity SevError (List.filter reported results)));
                     ("total_warnings",
                      JInt (sum_severity SevWarning (List.filter reported results))) ]);
            ("files", JList (List.map file_data (List.filter reported results))) ].
Proof.
  unfold format_json_output. rewrite json_loop_spec. reflexivity.
Qed.

Lemma reported_not_passed (r : FileResult) :
  reported r = negb (bool_decide (status r = Passed)).
Proof. unfold reported. destruct (status r); reflexivity. Qed.

Lemma sum_severity_flat (sev : Severity) (results : list FileResult) :
  sum_severity sev results
  = Z.of_nat (length (List.filter (fun i => bool_decide (severity i = sev))
                        (flat_map issues results))).
Proof.
  unfold sum_severity. induction results as [| r l IH]; simpl; [reflexivity |].
  rewrite List.filter_app, length_app, IH. unfold count_severity. lia.
Qed.

Lemma file_data_explicit (r : FileResult) :
  file_data r
  = JDict
      ([ ("path", JStr (path r));
         ("status",
          JStr (match status r with
                | Passed => "passed" | Failed => "failed" | Error => "error"
                end)) ]
       ++ match status r with
          | Error =>
              [ ("error",
                 JStr (match error r with Some e => e | None => "Unknown error" end)) ]
          | _ =>
              [ ("issues",
                 JList (List.map
                          (fun i =>
                             JDict [ ("rule", JStr (rule i));
                                     ("severity",
                                      JStr (match severity i with
                                            | SevError => "error"
                                            | SevWarning => "warning"
                                            end));
                                     ("message", JStr (message i));
                                     ("line",
                                      match line i with
                                      | Some n => JInt n
                                      | None => JNull
                                      end) ])
                          (issues r))) ]
          end).
Proof.
  unfold file_data, status_str.
  destruct (status r), (error r); simpl; repeat f_equal;
    apply List.map_ext; intros i; unfold issue_json, severity_str;
    destruct (severity i); reflexivity.
Qed.

(** C7: the structured output is the dictionary with a [summary] and a
    [files] list.  The list holds, in input order, one entry for each
    result whose status is not passed, that is failed or error: its path,
    its status and, for a failed result, its issues with rule, severity,
    message and line, for an error result its error text.  The summary
    gives the number of results, the number of passed ones, the difference
    of the two as [failed], and the numbers of error and of warning issues
    over the listed results.  A document on which every rule returns no
    issue gets status passed, and its result contributes no entry wherever
    it stands in the collection. *)
Theorem C7_json_omits_passed (results : list FileResult) :
  let not_passed := fun r : FileResult => negb (bool_decide (status r = Passed)) in
  let issue_entry := fun i : Issue =>
    JDict [ ("rule", JStr (rule i));
            ("severity",
             JStr (match severity i with SevError => "error" | SevWarning => "warning" end));
            ("message", JStr (message i));
            ("line", match line i with Some n => JInt n | None => JNull end) ] in
  let entry := fun r : FileResult =>
    JDict
      ([ ("path", JStr (path r));
         ("status",
          JStr (match status r with
                | Passed => "passed" | Failed => "failed" | Error => "error"
                end)) ]
       ++ match status r with
          | Error =>
              [ ("error",
                 JStr (match error r with Some e => e | None => "Unknown error" end)) ]
          | _ => [ ("issues", JList (List.map issue_entry (issues r))) ]
          end) in
  let count := fun (sev : Severity) (l : list FileResult) =>
    Z.of_nat (length (List.filter (fun i => bool_decide (severity i = sev))
                        (flat_map issues l))) in
  let passed :=
    Z.of_nat (length (List.filter (fun r => bool_decide (status r = Passed)) results)) in
  format_json_output results
  = JDict [ ("summary",
             JDict [ ("total_files", JInt (Z.of_nat (length results)));
                     ("passed", JInt passed);
                     ("failed", JInt (Z.of_nat (length results) - passed));
                     ("total_errors",
                      JInt (count SevError (List.filter not_passed results)));
                     ("total_warnings",
                      JInt (count SevWarning (List.filter not_passed results))) ]);
            ("files", JList (List.map entry (List.filter not_passed results))) ]
  /\ (forall r, In r (List.filter not_passed results)
                <-> In r results /\ (status r = Failed \/ status r = Error))
  /\ (forall read_text BeautifulSoup rules file_path raw_html soup before after,
        read_text file_path = Returned raw_html ->
        BeautifulSoup raw_html = Returned soup ->
        Forall (fun r => rule_func r soup file_path (Py.split_on Py.newline raw_html)
                         = Returned []) rules ->
        let result := validate_file read_text BeautifulSoup rules file_path in
        status result = Passed
        /\ issues result = []
        /\ exists summary,
             format_json_output (before ++ [result] ++ after)
             = JDict [ ("summary", summary);
                       ("files",
                        JList (List.map entry (List.filter not_passed before)
                               ++ List.map entry (List.filter not_passed after))) ]).
Proof.
  intros not_passed issue_entry entry count passed.
  assert (Hfilter : forall l, List.filter reported l = List.filter not_passed l).
  { intros l. apply List.filter_ext. intros r. apply reported_not_passed. }
  assert (Hfiles : forall l, List.map file_data l = List.map entry l).
  { intros l. apply List.map_ext. intros r. apply file_data_explicit. }
  split; [| split].
  - rewrite format_json_output_eq, Hfilter, Hfiles, !sum_severity_flat. reflexivity.
  - intros r. rewrite List.filter_In. subst not_passed. simpl.
    destruct (status r); simpl; split; intros [H1 H2]; split; auto; try discriminate;
      destruct H2; discriminate.
  - intros read_text BeautifulSoup rules file_path raw_html soup before after
      Hread Hparse Hrules result.
    subst result.
    rewrite (validate_file_no_issues _ _ _ _ _ _ Hread Hparse Hrules).
    split; [reflexivity |]. split; [reflexivity |].
    eexists. rewrite format_json_output_eq, Hfilter, Hfiles.
    rewrite !List.filter_app, List.map_app. reflexivity.
Qed.

Lemma C7_json_omits_passed_witness :
  let result :=
    validate_file (fun _ => Returned "<!DOCTYPE html>")
      (fun _ => Returned conforming_document) get_all_rules "d01/k01/chi/index.html" in
  status result = Passed
  /\ issues result = []
  /\ exists summary,
       format_json_output ([] ++ [result] ++ [])
       = JDict [ ("summary", summary); ("files", JList ([] ++ [])) ].
Proof.
  apply (proj2 (proj2 (C7_json_omits_passed []))
           (fun _ => Returned "<!DOCTYPE html>") (fun _ => Returned conforming_document)
           get_all_rules "d01/k01/chi/index.html" "<!DOCTYPE html>" conforming_document
           [] []);
    [ reflexivity | reflexivity | ].
  repeat (constructor; [vm_compute; reflexivity |]). constructor.
Defined.

(** ** Snippet extraction *)

Lemma index_in_range {A} (l : list A) (i : Z) (d : A) :
  0 <= i < Z.of_nat (length l) ->
  index l i = Returned (nth (Z.to_nat i) l d).
Proof.
  intros Hi. unfold index.
  destruct (Z.ltb_spec i 0) as [Hneg | _]; [lia |].
  destruct (Z.ltb_spec i 0) as [Hneg | _]; [lia |].
  rewrite (nth_error_nth' l d) by lia. reflexivity.
Qed.

Lemma range_Forall (a b : Z) : Forall (fun i => a <= i < b) (range a b).
Proof.
  unfold range. apply List.Forall_forall. intros i Hi.
  apply List.in_map_iff in Hi as (k & <- & Hk). apply in_seq in Hk. lia.
Qed.

Lemma range_shift {B} (f : Z -> B) (a b : Z) :
  List.map (fun i => f (i + 1)) (range (a - 1) b) = List.map f (range a (b + 1)).
Proof.
  unfold range. rewrite !List.map_map.
  replace (Z.to_nat (b - (a - 1))) with (Z.to_nat (b + 1 - a)) by (f_equal; lia).
  apply List.map_ext. intros k. f_equal. lia.
Qed.

Lemma snippet_loop_in_range (lines : list string) (idx : list Z)
  (acc : list (Z * string)) :
  Forall (fun i => 0 <= i < Z.of_nat (length lines)) idx ->
  snippet_loop lines idx acc
  = Returned (acc ++ List.map (fun i => snippet_entry lines (i + 1)) idx).
Proof.
  intros H. revert acc. induction H as [| i idx Hi _ IH]; intros acc; simpl.
  - rewrite app_nil_r. reflexivity.
  - rewrite (index_in_range lines i EmptyString Hi). simpl.
    rewrite IH, <- app_assoc. unfold snippet_entry at 2.
    replace (i + 1 - 1) with i by lia. reflexivity.
Qed.

(** The window for any context width, when the file can be read. *)
Lemma extract_code_snippet_window (readlines : string -> Outcome (list string))
  (file_path : string) (line_num context : Z) (lines : list string) :
  readlines file_path = Returned lines ->
  extract_code_snippet readlines file_path line_num context
  = Returned
      (List.map (snippet_entry lines)
         (range (Z.max 1 (line_num - context))
                (Z.min (Z.of_nat (length lines)) (line_num + context) + 1))).
Proof.
  intros Hread. unfold extract_code_snippet. rewrite Hread. simpl.
  rewrite snippet_loop_in_range.
  - simpl. rewrite (range_shift (snippet_entry lines)). reflexivity.
  - eapply List.Forall_impl; [| apply range_Forall]. simpl. intros i Hi. lia.
Qed.

(** C8, as the spec states it, fails: an exception of reading that is
    none of the three the [except] clause names, such as the [ValueError]
    that [open] raises for a path with a NUL character, is not caught. *)
Lemma C8_other_read_exception_raises :
  extract_code_snippet (fun _ => Raised (Exception "embedded null byte"))
    ("a" +:+ String (ascii_of_nat 0) "b.html") 3 5
  = Raised (Exception "embedded null byte").
Proof. reflexivity. Qed.

(** C8 (amended): with the window of 5, when the file is read
    [extract_code_snippet] returns the lines numbered from
    [max 1 (line - 5)] to [min total (line + 5)], each with its number and
    without its line end, all within the file and within 5 of [line]; for
    line 3 of a four-line file these are the lines 1 to 4.  When reading
    fails with [FileNotFoundError], [UnicodeDecodeError] or [IOError] it
    returns the empty snippet.  Any other exception of reading is raised to
    the caller. *)
Theorem C8_snippet_clipped (readlines : string -> Outcome (list string))
  (file_path : string) (line_num : Z) :
  (forall lines, readlines file_path = Returned lines ->
     let total := Z.of_nat (length lines) in
     let first := Z.max 1 (line_num - 5) in
     let last := Z.min total (line_num + 5) in
     exists snippet,
       extract_code_snippet readlines file_path line_num 5 = Returned snippet
       /\ snippet
          = List.map (fun k =>
                        (first + Z.of_nat k,
                         Py.rstrip_nl (nth (Z.to_nat (first + Z.of_nat k - 1)) lines
                                           EmptyString)))
                     (seq 0 (Z.to_nat (last + 1 - first)))
       /\ Forall (fun entry => 1 <= fst entry <= total
                               /\ line_num - 5 <= fst entry <= line_num + 5)
                 snippet)
  /\ (forall msg,
        readlines file_path = Raised (FileNotFoundError msg)
        \/ readlines file_path = Raised (UnicodeDecodeError msg)
        \/ readlines file_path = Raised (OSError msg) ->
        extract_code_snippet readlines file_path line_num 5 = Returned [])
  /\ (forall msg,
        (readlines file_path = Raised (Exception msg) ->
         extract_code_snippet readlines file_path line_num 5 = Raised (Exception msg))
        /\ (readlines file_path = Raised (IndexError msg) ->
            extract_code_snippet readlines file_path line_num 5
            = Raised (IndexError msg)))
  /\ (forall l1 l2 l3 l4, readlines file_path = Returned [l1; l2; l3; l4] ->
        line_num = 3 ->
        extract_code_snippet readlines file_path line_num 5
        = Returned [ (1, Py.rstrip_nl l1); (2, Py.rstrip_nl l2);
                     (3, Py.rstrip_nl l3); (4, Py.rstrip_nl l4) ]).
Proof.
  split; [| split; [| split]].
  - intros lines Hread total first last. eexists.
    split; [apply extract_code_snippet_window; exact Hread |].
    fold total first last. split.
    + unfold range. rewrite List.map_map. reflexivity.
    + apply List.Forall_forall. intros entry Hin.
      apply List.in_map_iff in Hin as (n & <- & Hn).
      pose proof (range_Forall first (last + 1)) as HF.
      rewrite List.Forall_forall in HF. apply HF in Hn. simpl. lia.
  - intros msg [H | [H | H]]; unfold extract_code_snippet; rewrite H; reflexivity.
  - intros msg. split; intros H; unfold extract_code_snippet; rewrite H; reflexivity.
  - intros l1 l2 l3 l4 Hread ->.
    rewrite (extract_code_snippet_window _ _ _ _ _ Hread). reflexivity.
Qed.

Lemma C8_snippet_clipped_witness :
  extract_code_snippet
    (fun _ => Returned ["<!DOCTYPE html>" +:+ Py.nl; "<html>" +:+ Py.nl;
                        "<head>" +:+ Py.nl; "</html>"])
    "index.html" 3 5
  = Returned [ (1, "<!DOCTYPE html>"); (2, "<html>"); (3, "<head>"); (4, "</html>") ]
  /\ extract_code_snippet (fun p => Raised (FileNotFoundError p)) "moved.html" 3 5
     = Returned [].
Proof.
  split.
  - exact (proj2 (proj2 (proj2
             (C8_snippet_clipped
                (fun _ => Returned ["<!DOCTYPE html>" +:+ Py.nl; "<html>" +:+ Py.nl;
                                    "<head>" +:+ Py.nl; "</html>"])
                "index.html" 3)))
             _ _ _ _ eq_refl eq_refl).
  - apply (proj1 (proj2 (C8_snippet_clipped (fun p => Raised (FileNotFoundError p))
                           "moved.html" 3)) "moved.html").
    left. reflexivity.
Defined.

(** ** Grouping by rule *)

Lemma dict_lookup_append (k k' : string) (i : Issue) (d : list (string * list Issue)) :
  dict_lookup k (dict_append k' i d)
  = if bool_decide (k' = k) then Some (default [] (dict_lookup k d) ++ [i])
    else dict_lookup k d.
Proof.
  induction d as [| [k0 l] d IH]; simpl.
  - repeat case_bool_decide; congruence.
  - repeat (case_bool_decide; simpl); subst; try congruence.
Qed.

Lemma dict_append_keys (k : string) (i : Issue) (d : list (string * list Issue)) :
  NoDup (List.map fst d) ->
  NoDup (List.map fst (dict_append k i d))
  /\ (forall k0, k0 ∈ List.map fst (dict_append k i d) <-> k0 = k \/ k0 ∈ List.map fst d).
Proof.
  induction d as [| [k0 l] d IH]; simpl; intros Hnd.
  - split.
    + apply NoDup_singleton.
    + intros k0. rewrite list_elem_of_singleton, elem_of_nil. tauto.
  - apply NoDup_cons in Hnd as [Hk0 Hnd]. destruct (IH Hnd) as [IH1 IH2].
    case_bool_decide; simpl.
    + subst. split; [apply NoDup_cons; auto |].
      intros k1. rewrite !elem_of_cons. tauto.
    + split.
      * apply NoDup_cons. split; [| exact IH1].
        rewrite IH2. intros [-> | Hin]; [congruence | auto].
      * intros k1. rewrite !elem_of_cons, IH2. tauto.
Qed.

Lemma file_issues_by_rule_fold (l : list Issue) (d : list (string * list Issue)) (k : string) :
  NoDup (List.map fst d) ->
  NoDup (List.map fst (fold_left (fun d i => dict_append (rule i) i d) l d))
  /\ dict_lookup k (fold_left (fun d i => dict_append (rule i) i d) l d)
     = match issues_for k l with
       | [] => dict_lookup k d
       | found => Some (default [] (dict_lookup k d) ++ found)
       end.
Proof.
  revert d. induction l as [| i l IH]; intros d Hnd; simpl.
  - auto.
  - destruct (dict_append_keys (rule i) i d Hnd) as [Hnd' _].
    destruct (IH _ Hnd') as [IH1 IH2]. split; [exact IH1 |].
    rewrite IH2, dict_lookup_append. unfold issues_for. simpl.
    case_bool_decide; simpl.
    + destruct (List.filter _ l); simpl; [reflexivity |].
      rewrite <- app_assoc. reflexivity.
    + reflexivity.
Qed.

Lemma file_issues_by_rule_lookup (l : list Issue) (k : string) :
  NoDup (List.map fst (file_issues_by_rule l))
  /\ dict_lookup k (file_issues_by_rule l)
     = match issues_for k l with [] => None | found => Some found end.
Proof.
  unfold file_issues_by_rule.
  destruct (file_issues_by_rule_fold l [] k) as [H1 H2]; [constructor |].
  split; [exact H1 |]. rewrite H2. simpl. destruct (issues_for k l); reflexivity.
Qed.

Lemma dict_lookup_None (k : string) (d : list (string * list Issue)) :
  k ∉ List.map fst d -> dict_lookup k d = None.
Proof.
  induction d as [| [k0 l] d IH]; simpl; intros Hk; [reflexivity |].
  rewrite not_elem_of_cons in Hk. destruct Hk as [Hne Hk].
  case_bool_decide; [congruence | apply IH; exact Hk].
Qed.

(** The effect of one "add to grouped structure" step on a given key. *)
Lemma add_failure_lookup (file_path : string) (st : GroupState) (k : string)
  (v : list Issue) (rid : string) :
  (add_failure file_path st (k, v)).1 !! rid
  = (if bool_decide (k = rid)
     then add_failures [mkFailure file_path v] <$> st.1 !! rid
     else st.1 !! rid)
  /\ (add_failure file_path st (k, v)).2 !! rid
     = (if bool_decide (k = rid) && bool_decide (is_Some (st.1 !! rid))
        then (fun s => {[file_path]} ∪ s) <$> st.2 !! rid
        else st.2 !! rid).
Proof.
  destruct st as [grouped files]. unfold add_failure. simpl.
  destruct (grouped !! k) as [agg |] eqn:Hk; simpl.
  - case_bool_decide; subst.
    + rewrite lookup_insert_eq, Hk, lookup_alter_eq. simpl. auto.
    + rewrite lookup_insert_ne, lookup_alter_ne by assumption. auto.
  - case_bool_decide; subst; simpl; [| auto].
    rewrite Hk. simpl. auto.
Qed.

Lemma fold_add_failure_lookup (file_path : string) (d : list (string * list Issue))
  (st : GroupState) (rid : string) :
  NoDup (List.map fst d) ->
  (fold_left (add_failure file_path) d st).1 !! rid
  = match dict_lookup rid d with
    | Some v => add_failures [mkFailure file_path v] <$> st.1 !! rid
    | None => st.1 !! rid
    end
  /\ (fold_left (add_failure file_path) d st).2 !! rid
     = match dict_lookup rid d with
       | Some v =>
           if bool_decide (is_Some (st.1 !! rid))
           then (fun s => {[file_path]} ∪ s) <$> st.2 !! rid
           else st.2 !! rid
       | None => st.2 !! rid
       end.
Proof.
  revert st. induction d as [| [k v] d IH]; intros st Hnd; simpl.
  - auto.
  - apply NoDup_cons in Hnd as [Hk Hnd].
    destruct (IH (add_failure file_path st (k, v)) Hnd) as [IH1 IH2].
    destruct (add_failure_lookup file_path st k v rid) as [A1 A2].
    rewrite IH1, IH2, A1, A2. clear IH IH1 IH2 A1 A2.
    case_bool_decide; subst; simpl.
    + rewrite (dict_lookup_None rid d Hk). auto.
    + destruct (dict_lookup rid d); auto.
Qed.

Lemma add_failures_nil (agg : RuleAggregate) : add_failures [] agg = agg.
Proof. destruct agg. unfold add_failures. simpl. rewrite app_nil_r. reflexivity. Qed.

Lemma add_failures_app (a b : list Failure) (agg : RuleAggregate) :
  add_failures b (add_failures a agg) = add_failures (a ++ b) agg.
Proof. unfold add_failures. simpl. rewrite app_assoc. reflexivity. Qed.

Lemma group_step_lookup (st : GroupState) (r : FileResult) (rid : string) :
  (group_step st r).1 !! rid
  = (if fails_rule rid r
     then add_failures [mkFailure (path r) (issues_for rid (issues r))] <$> st.1 !! rid
     else st.1 !! rid)
  /\ (group_step st r).2 !! rid
     = (if fails_rule rid r && bool_decide (is_Some (st.1 !! rid))
        then (fun s => {[path r]} ∪ s) <$> st.2 !! rid
        else st.2 !! rid).
Proof.
  unfold group_step, fails_rule. case_bool_decide as Hst; simpl; [| auto].
  destruct (file_issues_by_rule_lookup (issues r) rid) as [Hnd Hlk].
  destruct (fold_add_failure_lookup (path r) _ st rid Hnd) as [H1 H2].
  rewrite H1, H2, Hlk. destruct (issues_for rid (issues r)); auto.
Qed.

Lemma fold_group_step_lookup (results : list FileResult) (st : GroupState)
  (rid : string) :
  (fold_left group_step results st).1 !! rid
  = add_failures (expected_failures rid results) <$> st.1 !! rid
  /\ (fold_left group_step results st).2 !! rid
     = (if bool_decide (is_Some (st.1 !! rid))
        then (fun s => failing_paths rid results ∪ s) <$> st.2 !! rid
        else st.2 !! rid).
Proof.
  revert st. induction results as [| r results IH]; intros st; simpl.
  - split.
    + destruct (st.1 !! rid); simpl; [rewrite add_failures_nil |]; reflexivity.
    + case_bool_decide; [| reflexivity].
      destruct (st.2 !! rid); simpl; [f_equal; set_solver | reflexivity].
  - destruct (IH (group_step st r)) as [IH1 IH2].
    destruct (group_step_lookup st r rid) as [S1 S2].
    rewrite IH1, IH2, S1, S2. clear IH IH1 IH2 S1 S2.
    unfold expected_failures, failing_paths. simpl.
    destruct (fails_rule rid r); simpl.
    + destruct (st.1 !! rid) as [agg |]; simpl.
      * split; [rewrite add_failures_app; reflexivity |].
        destruct (st.2 !! rid); simpl; [f_equal; set_solver | reflexivity].
      * auto.
    + auto.
Qed.

Lemma init_grouped_fold (n : Z) (all_rules : list Rule) (m : gmap string RuleAggregate)
  (rid : string) :
  (rid ∈ List.map rule_id all_rules ->
   exists d,
     fold_left (fun (grouped : gmap string RuleAggregate) r =>
                  <[rule_id r := mkAggregate (description r) n 0 0 []]> grouped)
               all_rules m !! rid
     = Some (mkAggregate d n 0 0 []))
  /\ (rid ∉ List.map rule_id all_rules ->
      fold_left (fun (grouped : gmap string RuleAggregate) r =>
                   <[rule_id r := mkAggregate (description r) n 0 0 []]> grouped)
                all_rules m !! rid
      = m !! rid).
Proof.
  revert m. induction all_rules as [| r rules IH]; intros m; simpl.
  - split; [intros H; inversion H | reflexivity].
  - destruct (IH (<[rule_id r := mkAggregate (description r) n 0 0 []]> m)) as [IH1 IH2].
    destruct (decide (rid ∈ List.map rule_id rules)) as [Hin | Hnin].
    + split; [intros _; exact (IH1 Hin) |].
      intros Hn. rewrite not_elem_of_cons in Hn. tauto.
    + split.
      * intros Hin. apply elem_of_cons in Hin as [-> | Hin]; [| tauto].
        rewrite (IH2 Hnin), lookup_insert_eq. eauto.
      * intros Hn. rewrite not_elem_of_cons in Hn. destruct Hn as [Hne _].
        rewrite (IH2 Hnin), lookup_insert_ne by congruence. reflexivity.
Qed.

Lemma init_grouped_lookup (n : Z) (all_rules : list Rule) (rid : string) :
  (rid ∈ List.map rule_id all_rules ->
   exists d, init_grouped n all_rules !! rid = Some (mkAggregate d n 0 0 []))
  /\ (rid ∉ List.map rule_id all_rules -> init_grouped n all_rules !! rid = None).
Proof.
  unfold init_grouped. destruct (init_grouped_fold n all_rules ∅ rid) as [H1 H2].
  split; [exact H1 |]. intros H. rewrite (H2 H). apply lookup_empty.
Qed.

Lemma init_files_fold (all_rules : list Rule) (m : gmap string (gset string))
  (rid : string) :
  (rid ∈ List.map rule_id all_rules ->
   fold_left (fun (m : gmap string (gset string)) r => <[rule_id r := ∅]> m)
             all_rules m !! rid = Some ∅)
  /\ (rid ∉ List.map rule_id all_rules ->
      fold_left (fun (m : gmap string (gset string)) r => <[rule_id r := ∅]> m)
                all_rules m !! rid = m !! rid).
Proof.
  revert m. induction all_rules as [| r rules IH]; intros m; simpl.
  - split; [intros H; inversion H | reflexivity].
  - destruct (IH (<[rule_id r := ∅]> m)) as [IH1 IH2].
    destruct (decide (rid ∈ List.map rule_id rules)) as [Hin | Hnin].
    + split; [intros _; exact (IH1 Hin) |].
      intros Hn. rewrite not_elem_of_cons in Hn. tauto.
    + split.
      * intros Hin. apply elem_of_cons in Hin as [-> | Hin]; [| tauto].
        rewrite (IH2 Hnin), lookup_insert_eq. reflexivity.
      * intros Hn. rewrite not_elem_of_cons in Hn. destruct Hn as [Hne _].
        rewrite (IH2 Hnin), lookup_insert_ne by congruence. reflexivity.
Qed.

(** The entry of a registered rule id, and the absence of any other. *)
Lemma group_issues_by_rule_lookup (results : list FileResult) (all_rules : list Rule)
  (rid : string) :
  let n := Z.of_nat (length results) in
  let fc := Z.of_nat (size (failing_paths rid results)) in
  (rid ∈ List.map rule_id all_rules ->
   exists d,
     init_grouped n all_rules !! rid = Some (mkAggregate d n 0 0 [])
     /\ group_issues_by_rule results all_rules !! rid
        = Some (mkAggregate d n (n - fc) fc (expected_failures rid results)))
  /\ (rid ∉ List.map rule_id all_rules ->
      group_issues_by_rule results all_rules !! rid = None).
Proof.
  intros n fc. unfold group_issues_by_rule. fold n.
  destruct (fold_left group_step results
              (init_grouped n all_rules, init_files_by_rule all_rules))
    as [grouped files] eqn:Hfold.
  destruct (fold_group_step_lookup results
              (init_grouped n all_rules, init_files_by_rule all_rules) rid) as [F1 F2].
  rewrite Hfold in F1, F2. simpl in F1, F2.
  rewrite map_lookup_imap, F1.
  destruct (init_grouped_lookup n all_rules rid) as [G1 G2].
  split.
  - intros Hin. destruct (G1 Hin) as [d Hd]. exists d. split; [exact Hd |].
    rewrite Hd in F2 |- *. simpl in F2 |- *.
    unfold init_files_by_rule in F2.
    rewrite (proj1 (init_files_fold all_rules ∅ rid) Hin) in F2. simpl in F2.
    unfold set_counts. rewrite F2. simpl.
    rewrite (right_id_L ∅ (∪)). reflexivity.
  - intros Hnin. rewrite (G2 Hnin). reflexivity.
Qed.

Lemma fails_rule_has_issue (rid : string) (r : FileResult) :
  fails_rule rid r = true -> has_issue_for rid r = true.
Proof. unfold fails_rule, has_issue_for. intros H. apply andb_true_iff in H. tauto. Qed.

Lemma has_issue_fails_rule (rid : string) (r : FileResult) :
  result_invariant r -> has_issue_for rid r = fails_rule rid r.
Proof.
  unfold result_invariant, fails_rule, has_issue_for, issues_for. intros Hinv.
  destruct (List.filter _ (issues r)) eqn:Hf; [rewrite andb_false_r; reflexivity |].
  rewrite bool_decide_eq_true_2; [reflexivity |].
  apply Hinv. intros Hnil. rewrite Hnil in Hf. discriminate.
Qed.

Lemma failing_paths_invariant (rid : string) (results : list FileResult) :
  Forall result_invariant results ->
  failing_paths rid results = paths_with_issue rid results.
Proof.
  intros H. unfold failing_paths, paths_with_issue. f_equal. f_equal.
  apply List.filter_ext_in. intros r Hr. symmetry. apply has_issue_fails_rule.
  rewrite List.Forall_forall in H. auto.
Qed.

Lemma failing_paths_subseteq (rid : string) (results : list FileResult) :
  failing_paths rid results ⊆ paths_with_issue rid results.
Proof.
  unfold failing_paths, paths_with_issue. intros p.
  rewrite !elem_of_list_to_set, !list_elem_of_In, !List.in_map_iff.
  intros (r & Hp & Hr). exists r. split; [exact Hp |].
  rewrite List.filter_In in Hr |- *. destruct Hr as [Hr Hf].
  split; [exact Hr | apply fails_rule_has_issue; exact Hf].
Qed.

(** C1, as the spec states it, fails on a collection that [validate_file]
    itself returns: the error result left by a raising rule still carries
    an issue of the document-shell rule, which the grouping skips because
    the status is not failed. *)
Lemma C1_issue_on_error_result_not_counted :
  let results :=
    [ validate_file empty_file parse_empty registry_with_defect "index.html" ] in
  exists agg,
    group_issues_by_rule results registry_with_defect !! "basic-structure" = Some agg
    /\ failed_files agg = 0
    /\ passed_files agg = 1
    /\ size (paths_with_issue "basic-structure" results) = 1%nat.
Proof.
  intros results. eexists.
  split; [vm_compute; reflexivity |].
  split; [reflexivity |]. split; [reflexivity |]. vm_compute. reflexivity.
Qed.

(** C1 (amended): every registered rule has an entry in the aggregate;
    its [total_files] is the number of results, [passed_files +
    failed_files] equals [total_files], and [failed_files] is the number
    of distinct paths of the results with status failed that carry an
    issue for the rule.  When only failed results carry issues that is the
    number of distinct paths with at least one issue for the rule, and it
    is 0 when no result has such an issue. *)
Theorem C1_aggregate_counts (results : list FileResult) (all_rules : list Rule)
  (r : Rule) :
  In r all_rules ->
  exists agg,
    group_issues_by_rule results all_rules !! rule_id r = Some agg
    /\ total_files agg = Z.of_nat (length results)
    /\ passed_files agg + failed_files agg = total_files agg
    /\ failed_files agg = Z.of_nat (size (failing_paths (rule_id r) results))
    /\ (Forall result_invariant results ->
        failed_files agg = Z.of_nat (size (paths_with_issue (rule_id r) results)))
    /\ (paths_with_issue (rule_id r) results = ∅ -> failed_files agg = 0).
Proof.
  intros Hin.
  assert (Hid : rule_id r ∈ List.map rule_id all_rules).
  { apply list_elem_of_In, List.in_map. exact Hin. }
  destruct (proj1 (group_issues_by_rule_lookup results all_rules (rule_id r)) Hid)
    as (d & _ & Hlk).
  eexists. split; [exact Hlk |]. simpl.
  split; [reflexivity |]. split; [lia |]. split; [reflexivity |]. split.
  - intros Hinv. rewrite (failing_paths_invariant _ _ Hinv). reflexivity.
  - intros Hempty.
    pose proof (failing_paths_subseteq (rule_id r) results) as Hsub.
    rewrite Hempty in Hsub.
    assert (failing_paths (rule_id r) results = ∅) as -> by set_solver.
    reflexivity.
Qed.

Lemma C1_aggregate_counts_witness :
  let results :=
    [ mkResult "chi/a.html" Failed
        [ mkIssue "basic-structure" SevError "Missing DOCTYPE html declaration" None;
          mkIssue "basic-structure" SevError "Missing <html> tag" None ]
        None;
      mkResult "chi/b.html" Passed [] None ] in
  exists agg,
    group_issues_by_rule results get_all_rules !! "basic-structure" = Some agg
    /\ total_files agg = 2
    /\ passed_files agg + failed_files agg = total_files agg
    /\ failed_files agg = Z.of_nat (size (paths_with_issue "basic-structure" results)).
Proof.
  intros results.
  destruct (C1_aggregate_counts results get_all_rules
              (validator_rule "basic-structure" "Check DOCTYPE and html tag"
                 validate_basic_structure))
    as (agg & Hlk & Ht & Hsum & _ & Hinv & _).
  - left. reflexivity.
  - exists agg. split; [exact Hlk |]. split; [exact Ht |]. split; [exact Hsum |].
    apply Hinv. repeat constructor. intros Hnil. contradiction Hnil. reflexivity.
Defined.

Lemma issues_for_registered (all_rules : list Rule) (rid : string) (l : list Issue) :
  rid ∈ List.map rule_id all_rules ->
  issues_for rid (List.filter (fun i => registered all_rules (rule i)) l)
  = issues_for rid l.
Proof.
  intros Hin. unfold issues_for. induction l as [| i l IH]; simpl; [reflexivity |].
  destruct (registered all_rules (rule i)) eqn:Hreg; simpl.
  - rewrite IH. reflexivity.
  - rewrite IH. case_bool_decide as Hr; [| reflexivity].
    unfold registered in Hreg. rewrite Hr in Hreg.
    rewrite bool_decide_eq_true_2 in Hreg by exact Hin. discriminate.
Qed.

Lemma strip_unregistered_view (all_rules : list Rule) (rid : string)
  (results : list FileResult) :
  rid ∈ List.map rule_id all_rules ->
  failing_paths rid (List.map (strip_unregistered all_rules) results)
  = failing_paths rid results
  /\ expected_failures rid (List.map (strip_unregistered all_rules) results)
     = expected_failures rid results.
Proof.
  intros Hin. unfold failing_paths, expected_failures.
  induction results as [| r results [IH1 IH2]]; simpl; [auto |].
  assert (Hf : fails_rule rid (strip_unregistered all_rules r) = fails_rule rid r).
  { unfold fails_rule, strip_unregistered. simpl.
    rewrite (issues_for_registered _ _ _ Hin). reflexivity. }
  rewrite Hf. destruct (fails_rule rid r); simpl.
  - rewrite (issues_for_registered _ _ _ Hin), IH2. split; [| reflexivity].
    rewrite IH1. reflexivity.
  - auto.
Qed.

Lemma group_issues_by_rule_strip (results : list FileResult) (all_rules : list Rule) :
  group_issues_by_rule (List.map (strip_unregistered all_rules) results) all_rules
  = group_issues_by_rule results all_rules.
Proof.
  apply map_eq. intros rid.
  pose proof (group_issues_by_rule_lookup
                (List.map (strip_unregistered all_rules) results) all_rules rid) as Hs.
  pose proof (group_issues_by_rule_lookup results all_rules rid) as Hr.
  cbv zeta in Hs, Hr. rewrite List.length_map in Hs.
  destruct (decide (rid ∈ List.map rule_id all_rules)) as [Hin | Hnin].
  - destruct (proj1 Hs Hin) as (d1 & Hd1 & ->).
    destruct (proj1 Hr Hin) as (d2 & Hd2 & ->).
    rewrite Hd1 in Hd2. injection Hd2 as ->.
    destruct (strip_unregistered_view all_rules rid results Hin) as [-> ->].
    reflexivity.
  - rewrite (proj2 Hs Hnin), (proj2 Hr Hnin). reflexivity.
Qed.

Lemma group_issues_by_rule_failures (results : list FileResult) (all_rules : list Rule)
  (rid : string) (agg : RuleAggregate) (f : Failure) (i : Issue) :
  group_issues_by_rule results all_rules !! rid = Some agg ->
  In f (failures agg) -> In i (failure_issues f) ->
  rule i = rid /\ rid ∈ List.map rule_id all_rules
  /\ exists r, In r results /\ status r = Failed /\ path r = failure_path f
               /\ In i (issues r).
Proof.
  intros Hlk Hf Hi.
  destruct (group_issues_by_rule_lookup results all_rules rid) as [H1 H2].
  cbv zeta in H1, H2.
  destruct (decide (rid ∈ List.map rule_id all_rules)) as [Hin | Hnin].
  - destruct (H1 Hin) as (d & _ & Hagg). rewrite Hagg in Hlk. injection Hlk as <-.
    simpl in Hf. unfold expected_failures in Hf.
    apply List.in_map_iff in Hf as (r & <- & Hr). simpl in Hi.
    apply List.filter_In in Hr as [Hr Hfail].
    unfold issues_for in Hi. apply List.filter_In in Hi as [Hi Hrule].
    apply bool_decide_eq_true in Hrule.
    unfold fails_rule in Hfail. apply andb_true_iff in Hfail as [Hst _].
    apply bool_decide_eq_true in Hst. simpl. eauto 10.
  - rewrite (H2 Hnin) in Hlk. discriminate.
Qed.

Lemma count_severity_split (sev : Severity) (p : Issue -> bool) (l : list Issue) :
  count_severity sev l
  = count_severity sev (List.filter p l)
    + count_severity sev (List.filter (fun i => negb (p i)) l).
Proof.
  unfold count_severity. induction l as [| i l IH]; simpl; [reflexivity |].
  destruct (p i); simpl; case_bool_decide; simpl length; lia.
Qed.

Lemma html_totals_fold (sev : Severity) (results : list FileResult) (a : Z) :
  fold_left (fun total result =>
               if bool_decide (status result = Failed)
               then total + count_severity sev (issues result)
               else total) results a
  = a + sum_severity sev (List.filter is_failed results).
Proof.
  revert a. induction results as [| r results IH]; intros a; simpl; [lia |].
  rewrite IH. change (bool_decide (status r = Failed)) with (is_failed r).
  destruct (is_failed r); simpl; lia.
Qed.

Lemma html_totals_unregistered (sev : Severity) (all_rules : list Rule)
  (results : list FileResult) :
  html_totals sev results
  = html_totals sev (List.map (strip_unregistered all_rules) results)
    + unregistered_total sev all_rules results.
Proof.
  unfold html_totals, unregistered_total. rewrite !html_totals_fold.
  induction results as [| r results IH]; simpl; [reflexivity |].
  change (is_failed (strip_unregistered all_rules r)) with (is_failed r).
  destruct (is_failed r); simpl; [| exact IH].
  rewrite (count_severity_split sev (fun i => registered all_rules (rule i)) (issues r)).
  unfold unregistered_issues at 1. lia.
Qed.

(** C10: issues under a rule id that is not registered leave no trace in
    the rule-major aggregate: the aggregate is the one obtained after
    removing them from every result; every issue listed in an entry's
    failures carries that entry's registered id and comes from a failed
    result; yet [validate_file] marks a file failed for any issue a rule
    returns, and the summary totals of the HTML report count them. *)
Theorem C10_unregistered_rule_ignored (results : list FileResult) (all_rules : list Rule) :
  group_issues_by_rule (List.map (strip_unregistered all_rules) results) all_rules
  = group_issues_by_rule results all_rules
  /\ (forall rid agg f i,
        group_issues_by_rule results all_rules !! rid = Some agg ->
        In f (failures agg) -> In i (failure_issues f) ->
        rule i = rid /\ rid ∈ List.map rule_id all_rules)
  /\ (forall rid agg,
        group_issues_by_rule results all_rules !! rid = Some agg ->
        failed_files agg
        = Z.of_nat (size (failing_paths rid
                            (List.map (strip_unregistered all_rules) results))))
  /\ (forall sev,
        html_totals sev results
        = html_totals sev (List.map (strip_unregistered all_rules) results)
          + unregistered_total sev all_rules results)
  /\ (forall read_text BeautifulSoup file_path raw_html soup acc,
        read_text file_path = Returned raw_html ->
        BeautifulSoup raw_html = Returned soup ->
        run_rules all_rules soup file_path (Py.split_on Py.newline raw_html) []
        = (acc, None) ->
        acc <> [] ->
        validate_file read_text BeautifulSoup all_rules file_path
        = mkResult file_path Failed acc None).
Proof.
  split; [apply group_issues_by_rule_strip |]. split.
  - intros rid agg f i Hlk Hf Hi.
    destruct (group_issues_by_rule_failures _ _ _ _ _ _ Hlk Hf Hi) as (H1 & H2 & _).
    auto.
  - split; [| split].
    + intros rid agg Hlk.
      destruct (group_issues_by_rule_lookup results all_rules rid) as [H1 H2].
      cbv zeta in H1, H2.
      destruct (decide (rid ∈ List.map rule_id all_rules)) as [Hin | Hnin].
      * destruct (H1 Hin) as (d & _ & Hagg). rewrite Hagg in Hlk.
        injection Hlk as <-. simpl.
        rewrite (proj1 (strip_unregistered_view all_rules rid results Hin)).
        reflexivity.
      * rewrite (H2 Hnin) in Hlk. discriminate.
    + intros sev. apply html_totals_unregistered.
    + intros read_text BeautifulSoup file_path raw_html soup acc Hread Hparse Hrun Hne.
      unfold validate_file. rewrite Hread, Hparse, Hrun.
      destruct acc; [congruence | reflexivity].
Qed.

Lemma C10_unregistered_rule_ignored_witness :
  let mislabelled :=
    mkRule "link-check" "A rule that labels its issues with another id"
      (fun _ _ _ => Returned [mkIssue "links" SevError "Broken link" None]) in
  let result :=
    validate_file (fun _ => Returned EmptyString) (fun _ => Returned [])
      [mislabelled] "index.html" in
  result = mkResult "index.html" Failed [mkIssue "links" SevError "Broken link" None] None
  /\ group_issues_by_rule [result] [mislabelled]
     = group_issues_by_rule [strip_unregistered [mislabelled] result] [mislabelled]
  /\ html_totals SevError [result] = 0 + 1.
Proof.
  intros mislabelled result.
  assert (Hres : result
                 = mkResult "index.html" Failed
                     [mkIssue "links" SevError "Broken link" None] None).
  { apply (proj2 (proj2 (proj2 (proj2
             (C10_unregistered_rule_ignored [] [mislabelled]))))
             (fun _ => Returned EmptyString) (fun _ => Returned []) "index.html"
             EmptyString [] [mkIssue "links" SevError "Broken link" None]);
      [reflexivity | reflexivity | reflexivity | discriminate]. }
  split; [exact Hres |]. split.
  - symmetry. exact (proj1 (C10_unregistered_rule_ignored [result] [mislabelled])).
  - rewrite (proj1 (proj2 (proj2 (proj2
               (C10_unregistered_rule_ignored [result] [mislabelled])))) SevError).
    rewrite Hres. reflexivity.
Defined.

(** ** HTML report: escaping *)

Lemma prefix_nil (s : string) : String.prefix EmptyString s = true.
Proof. destruct s; reflexivity. Qed.

Lemma prefix_cons (a b : ascii) (s1 s2 : string) :
  String.prefix (String a s1) (String b s2)
  = if ascii_dec a b then String.prefix s1 s2 else false.
Proof. reflexivity. Qed.

Lemma prefix_app (t a b : string) :
  String.prefix t a = true -> String.prefix t (a +:+ b) = true.
Proof.
  revert t. induction a as [| c a IH]; intros t Ht.
  - destruct t; [apply prefix_nil | discriminate].
  - destruct t as [| c' t]; [reflexivity |]. simpl in *.
    destruct (ascii_dec c' c); [apply IH; exact Ht | discriminate].
Qed.

Lemma prefix_comparable (a b s : string) :
  String.prefix a s = true -> String.prefix b s = true ->
  String.prefix a b = true \/ String.prefix b a = true.
Proof.
  revert a b. induction s as [| c s IH]; intros a b Ha Hb.
  - destruct a; [| discriminate]. left. apply prefix_nil.
  - destruct a as [| ca a]; [left; apply prefix_nil |].
    destruct b as [| cb b]; [right; apply prefix_nil |].
    simpl in *.
    destruct (ascii_dec ca c); [| discriminate].
    destruct (ascii_dec cb c); [| discriminate]. subst.
    destruct (ascii_dec c c); [| congruence].
    apply IH; assumption.
Qed.

Lemma starts_report_tag_app (a b : string) :
  starts_report_tag a = true -> starts_report_tag (a +:+ b) = true.
Proof.
  unfold starts_report_tag. rewrite !existsb_exists.
  intros (t & Hin & Ht). exists t. split; [exact Hin | apply prefix_app; exact Ht].
Qed.

Lemma tags_ok_app (a b : string) :
  tags_ok a = true -> tags_ok b = true -> tags_ok (a +:+ b) = true.
Proof.
  intros Ha Hb. induction a as [| c a IH]; [exact Hb |].
  simpl in Ha. apply andb_true_iff in Ha as [Hc Ha].
  change (String c a +:+ b) with (String c (a +:+ b)).
  cbn [tags_ok]. apply andb_true_iff. split; [| apply IH; exact Ha].
  destruct (Ascii.eqb c "<"); [| reflexivity].
  apply (starts_report_tag_app (String c a) b). exact Hc.
Qed.

Lemma lacks_app (c : ascii) (a b : string) :
  lacks c a = true -> lacks c b = true -> lacks c (a +:+ b) = true.
Proof.
  intros Ha Hb. induction a as [| x a IH]; [exact Hb |].
  simpl in *. apply andb_true_iff in Ha as [Hx Ha].
  rewrite Hx. simpl. apply IH. exact Ha.
Qed.

Lemma lacks_tags_ok (s : string) : lacks "<" s = true -> tags_ok s = true.
Proof.
  induction s as [| c s IH]; [reflexivity |]. simpl. intros H.
  apply andb_true_iff in H as [Hc Hs]. apply negb_true_iff in Hc.
  rewrite Hc. simpl. apply IH. exact Hs.
Qed.

Lemma escape_char_lacks (c a : ascii) :
  In c ["<"; ">"; Py.dquote; "'"]%char -> lacks c (Py.escape_char a) = true.
Proof.
  intros Hc. unfold Py.escape_char.
  destruct (Ascii.eqb_spec a "&");
    [destruct Hc as [<- | [<- | [<- | [<- | []]]]]; reflexivity |].
  destruct (Ascii.eqb_spec a "<");
    [destruct Hc as [<- | [<- | [<- | [<- | []]]]]; reflexivity |].
  destruct (Ascii.eqb_spec a ">");
    [destruct Hc as [<- | [<- | [<- | [<- | []]]]]; reflexivity |].
  destruct (Ascii.eqb_spec a Py.dquote);
    [destruct Hc as [<- | [<- | [<- | [<- | []]]]]; reflexivity |].
  destruct (Ascii.eqb_spec a "'");
    [destruct Hc as [<- | [<- | [<- | [<- | []]]]]; reflexivity |].
  simpl. rewrite andb_true_r. apply negb_true_iff, Ascii.eqb_neq.
  destruct Hc as [<- | [<- | [<- | [<- | []]]]]; assumption.
Qed.

Lemma html_escape_lacks (c : ascii) (s : string) :
  In c ["<"; ">"; Py.dquote; "'"]%char -> lacks c (Py.html_escape s) = true.
Proof.
  intros Hc. induction s as [| a s IH]; [reflexivity |].
  simpl. apply lacks_app; [apply escape_char_lacks; exact Hc | exact IH].
Qed.

Lemma tags_ok_escape (s : string) : tags_ok (Py.html_escape s) = true.
Proof. apply lacks_tags_ok, html_escape_lacks. left. reflexivity. Qed.

Lemma string_of_uint_lacks (d : Decimal.uint) :
  lacks "<" (NilEmpty.string_of_uint d) = true.
Proof. induction d; simpl; auto. Qed.

Lemma nilzero_string_of_uint_lacks (d : Decimal.uint) :
  lacks "<" (NilZero.string_of_uint d) = true.
Proof.
  unfold NilZero.string_of_uint.
  destruct d; first [reflexivity | apply string_of_uint_lacks].
Qed.

Lemma tags_ok_str_int (n : Z) : tags_ok (Py.str_int n) = true.
Proof.
  apply lacks_tags_ok. unfold Py.str_int, NilZero.string_of_int.
  destruct (Z.to_int n) as [d | d].
  - apply nilzero_string_of_uint_lacks.
  - cbn [lacks]. rewrite nilzero_string_of_uint_lacks. reflexivity.
Qed.

Lemma tags_ok_join (sep : string) (l : list string) :
  tags_ok sep = true -> Forall (fun s => tags_ok s = true) l ->
  tags_ok (Py.join sep l) = true.
Proof.
  intros Hsep H. induction H as [| s l Hs Hl IH]; [reflexivity |].
  destruct l as [| s' l]; [exact Hs |].
  change (Py.join sep (s :: s' :: l)) with (s +:+ sep +:+ Py.join sep (s' :: l)).
  apply tags_ok_app; [exact Hs |]. apply tags_ok_app; [exact Hsep | exact IH].
Qed.

Lemma tags_ok_no_script (s : string) :
  tags_ok s = true -> Py.contains "<script" s = false.
Proof.
  induction s as [| c s IH]; [reflexivity |].
  intros H. simpl in H. apply andb_true_iff in H as [Hc Hs].
  change (Py.contains "<script" (String c s))
    with (String.prefix "<script" (String c s) || Py.contains "<script" s).
  rewrite (IH Hs), orb_false_r.
  destruct (String.prefix "<script" (String c s)) eqn:Hp; [| reflexivity].
  assert (c = "<"%char) as ->.
  { rewrite prefix_cons in Hp.
    destruct (ascii_dec "<" c); [congruence | discriminate]. }
  simpl in Hc. unfold starts_report_tag in Hc.
  apply existsb_exists in Hc as (t & Hin & Ht).
  destruct (prefix_comparable _ _ _ Ht Hp) as [Hbad | Hbad];
    exfalso; revert Hbad; clear -Hin;
    repeat (destruct Hin as [<- | Hin]; [vm_compute; discriminate |]);
    destruct Hin.
Qed.

Ltac tags_tac :=
  lazymatch goal with
  | |- tags_ok (Py.html_escape _) = true => apply tags_ok_escape
  | |- tags_ok (Py.str_int _) = true => apply tags_ok_str_int
  | |- tags_ok (_ +:+ _) = true =>
      first [ reflexivity | apply tags_ok_app; tags_tac ]
  | |- _ => reflexivity
  end.

Lemma tags_ok_snippet_line (error_line : Z) (sev : Severity) (entry : Z * string) :
  tags_ok (snippet_line_html error_line sev
             (if bool_decide (sev = SevError) then "❌" else "⚠") entry) = true.
Proof.
  destruct entry as [line_num line_content]. unfold snippet_line_html.
  destruct (Z.eqb line_num error_line); destruct sev; simpl bool_decide; cbv iota;
    tags_tac.
Qed.

Lemma tags_ok_format_code_snippet (snippet : list (Z * string)) (error_line : Z)
  (sev : Severity) :
  tags_ok (format_code_snippet_html snippet error_line sev) = true.
Proof.
  unfold format_code_snippet_html. destruct snippet as [| e snippet]; [reflexivity |].
  apply tags_ok_join; [reflexivity |].
  apply List.Forall_forall. intros s Hs.
  apply List.in_map_iff in Hs as (entry & <- & _). apply tags_ok_snippet_line.
Qed.

Lemma tags_ok_rule_header (rid : string) (data : RuleAggregate) :
  tags_ok (rule_header_html rid data) = true.
Proof.
  unfold rule_header_html. destruct (Z.eqb (failed_files data) 0); tags_tac.
Qed.

Lemma tags_ok_issue_header (i : Issue) : tags_ok (issue_header_html i) = true.
Proof.
  unfold issue_header_html.
  destruct (severity i); simpl bool_decide; cbv iota;
    destruct (known_line (line i)); tags_tac.
Qed.

Section ReportFacts.

Variable readlines : string -> Outcome (list string).
Hypothesis soft : reads_fail_softly readlines.

Lemma extract_code_snippet_returns (file_path : string) (line_num context : Z) :
  exists snippet,
    extract_code_snippet readlines file_path line_num context = Returned snippet.
Proof.
  destruct (readlines file_path) as [lines | e] eqn:Hread.
  - eexists. apply extract_code_snippet_window. exact Hread.
  - exists []. unfold extract_code_snippet. rewrite Hread. simpl.
    rewrite (soft file_path e Hread). reflexivity.
Qed.

Lemma issues_html_ok (file_path : string) (l : list Issue) :
  exists out,
    issues_html readlines file_path l = Returned out
    /\ Forall (fun s => tags_ok s = true) out.
Proof.
  induction l as [| i l (rest & Hrest & Hok)]; simpl.
  - exists []. split; [reflexivity | constructor].
  - rewrite Hrest.
    destruct (known_line (line i)) as [n |].
    + destruct (extract_code_snippet_returns file_path n 5) as [snippet ->].
      destruct snippet as [| e snippet]; cbn [mbind outcome_bind app].
      * eexists. split; [reflexivity |].
        constructor; [apply tags_ok_issue_header |].
        constructor; [reflexivity | exact Hok].
      * eexists. split; [reflexivity |].
        constructor; [apply tags_ok_issue_header |].
        constructor.
        { apply tags_ok_app; [reflexivity |].
          apply tags_ok_app; [apply tags_ok_format_code_snippet | reflexivity]. }
        constructor; [reflexivity | exact Hok].
    + simpl. eexists. split; [reflexivity |].
      constructor; [apply tags_ok_issue_header |].
      constructor; [reflexivity | exact Hok].
Qed.

Lemma failures_html_ok (l : list Failure) :
  exists out,
    failures_html readlines l = Returned out
    /\ Forall (fun s => tags_ok s = true) out.
Proof.
  induction l as [| f l (rest & Hrest & Hok)]; simpl.
  - exists []. split; [reflexivity | constructor].
  - destruct (issues_html_ok (failure_path f) (failure_issues f)) as (blocks & -> & Hb).
    rewrite Hrest. simpl. eexists. split; [reflexivity |].
    constructor; [reflexivity |].
    constructor; [tags_tac |].
    apply Forall_app. split; [exact Hb |].
    constructor; [reflexivity | exact Hok].
Qed.

Lemma rules_html_ok (l : list (string * RuleAggregate)) :
  exists out,
    rules_html readlines l = Returned out
    /\ Forall (fun s => tags_ok s = true) out.
Proof.
  induction l as [| [rid data] l (rest & Hrest & Hok)]; simpl.
  - exists []. split; [reflexivity | constructor].
  - rewrite Hrest. destruct (Z.eqb (failed_files data) 0); simpl.
    + eexists. split; [reflexivity |].
      constructor; [apply tags_ok_rule_header |].
      constructor; [reflexivity | exact Hok].
    + destruct (failures_html_ok (failures data)) as (inner & -> & Hin). simpl.
      eexists. split; [reflexivity |].
      constructor; [apply tags_ok_rule_header |].
      constructor; [reflexivity |].
      apply Forall_app. split.
      * apply Forall_app. split; [exact Hin |].
        constructor; [reflexivity | constructor].
      * constructor; [reflexivity | exact Hok].
Qed.

Lemma generate_html_rules_ok (grouped : gmap string RuleAggregate) :
  exists out,
    _generate_html_rules readlines grouped = Returned out
    /\ tags_ok out = true.
Proof.
  unfold _generate_html_rules.
  destruct (rules_html_ok (sorted_rules grouped)) as (body & -> & Hb).
  cbn [mbind outcome_bind]. eexists. split; [reflexivity |].
  apply tags_ok_join; [reflexivity |].
  constructor; [reflexivity |].
  apply Forall_app. split; [exact Hb |]. constructor; [reflexivity | constructor].
Qed.

End ReportFacts.

Lemma contains_here (x s : string) :
  String.prefix x s = true -> Py.contains x s = true.
Proof. intros H. destruct s; cbn [Py.contains]; rewrite H; reflexivity. Qed.

Lemma prefix_self_app (x b : string) : String.prefix x (x +:+ b) = true.
Proof.
  induction x as [| c x IH]; [apply prefix_nil |].
  change (String c x +:+ b) with (String c (x +:+ b)). rewrite prefix_cons.
  destruct (ascii_dec c c); [exact IH | congruence].
Qed.

Lemma contains_app_r (x a s : string) :
  Py.contains x s = true -> Py.contains x (a +:+ s) = true.
Proof.
  intros H. induction a as [| c a IH]; [exact H |].
  change (String c a +:+ s) with (String c (a +:+ s)).
  cbn [Py.contains]. rewrite IH. apply orb_true_r.
Qed.

Lemma issue_header_contains_escaped (i : Issue) :
  Py.contains (Py.html_escape (message i)) (issue_header_html i) = true.
Proof.
  unfold issue_header_html. apply contains_app_r, contains_here, prefix_self_app.
Qed.

(** C9: whatever the rule ids, descriptions, paths, messages and file
    contents are, the rules section of the HTML report is produced (given
    that reading a file succeeds or fails with a read error) and every
    less-than sign in it opens one of the report's own template tags, so
    [<script] never occurs in it; the same holds for a formatted snippet.
    [html.escape] leaves none of the characters less-than, greater-than,
    double quote and single quote in its result, and the header of an
    issue contains the issue's message in that escaped form.  A message
    [<script>alert(1)</script>] and a path [chi/<b>.html] show up as
    [&lt;script&gt;alert(1)&lt;/script&gt;] and [chi/&lt;b&gt;.html]. *)
Theorem C9_report_escapes_user_text (readlines : string -> Outcome (list string))
  (grouped : gmap string RuleAggregate) :
  reads_fail_softly readlines ->
  (exists out,
      _generate_html_rules readlines grouped = Returned out
      /\ tags_ok out = true
      /\ Py.contains "<script" out = false)
  /\ (forall snippet error_line sev,
        tags_ok (format_code_snippet_html snippet error_line sev) = true
        /\ Py.contains "<script" (format_code_snippet_html snippet error_line sev) = false)
  /\ (forall s c, In c ["<"; ">"; Py.dquote; "'"]%char ->
                  lacks c (Py.html_escape s) = true)
  /\ (forall i, Py.contains (Py.html_escape (message i)) (issue_header_html i) = true)
  /\ (exists out,
        _generate_html_rules no_files (group_issues_by_rule script_results get_all_rules)
        = Returned out
        /\ Py.contains "&lt;script&gt;alert(1)&lt;/script&gt;" out = true
        /\ Py.contains "<h4>chi/&lt;b&gt;.html</h4>" out = true
        /\ Py.contains "<script>" out = false).
Proof.
  intros soft. split; [| split; [| split; [| split]]].
  - destruct (generate_html_rules_ok readlines soft grouped) as (out & Hout & Hok).
    exists out. split; [exact Hout |]. split; [exact Hok |].
    apply tags_ok_no_script. exact Hok.
  - intros snippet error_line sev.
    split; [apply tags_ok_format_code_snippet |].
    apply tags_ok_no_script, tags_ok_format_code_snippet.
  - intros s c Hc. apply html_escape_lacks. exact Hc.
  - apply issue_header_contains_escaped.
  - eexists. split; [vm_compute; reflexivity |].
    split; [| split]; vm_compute; reflexivity.
Qed.

Lemma C9_report_escapes_user_text_witness :
  exists out,
    _generate_html_rules no_files (group_issues_by_rule script_results get_all_rules)
    = Returned out
    /\ tags_ok out = true
    /\ Py.contains "<script" out = false.
Proof.
  apply (C9_report_escapes_user_text no_files
           (group_issues_by_rule script_results get_all_rules)).
  intros file_path e He. injection He as <-. reflexivity.
Defined.

(* ===================================================================== *)
(** * Further properties of the sources *)
(* ===================================================================== *)

(** ** Orchestrator *)

Lemma on_exception_path (file_path : string) (acc : list Issue) (e : Exn) :
  path (on_exception file_path acc e) = file_path.
Proof. destruct e; reflexivity. Qed.

Lemma validate_file_path (read_text : string -> Outcome string)
  (BeautifulSoup : string -> Outcome Soup) (rules : list Rule) (file_path : string) :
  path (validate_file read_text BeautifulSoup rules file_path) = file_path.
Proof.
  unfold validate_file.
  destruct (read_text file_path) as [raw_html | e]; [| apply on_exception_path].
  destruct (BeautifulSoup raw_html) as [soup | e]; [| apply on_exception_path].
  destruct (run_rules rules soup file_path _ []) as [acc [e |]];
    [apply on_exception_path | reflexivity].
Qed.

(** X1: [validate_files] returns one result per path, in the order of the
    paths, and each result carries the path it was computed for, whether
    the file was validated or could not be read. *)
Theorem X1_validate_files_paths (read_text : string -> Outcome string)
  (BeautifulSoup : string -> Outcome Soup) (rules : list Rule)
  (file_paths : list string) :
  List.map path (validate_files read_text BeautifulSoup rules file_paths) = file_paths
  /\ length (validate_files read_text BeautifulSoup rules file_paths) = length file_paths.
Proof.
  unfold validate_files. split; [| apply List.length_map].
  induction file_paths as [| p l IH]; simpl; [reflexivity |].
  rewrite validate_file_path, IH. reflexivity.
Qed.

(** X2: whatever the registry and the files do, the result of
    [validate_file] has an [error] text exactly when its status is error;
    a passed result has no issues and a failed one has at least one. *)
Theorem X2_validate_file_status_coherent (read_text : string -> Outcome string)
  (BeautifulSoup : string -> Outcome Soup) (rules : list Rule) (file_path : string) :
  let result := validate_file read_text BeautifulSoup rules file_path in
  (status result = Error <-> is_Some (error result))
  /\ (status result = Passed <-> issues result = [] /\ error result = None)
  /\ (status result = Failed <-> issues result <> [] /\ error result = None).
Proof.
  assert (Hexn : forall acc e,
             let r := on_exception file_path acc e in
             (status r = Error <-> is_Some (error r))
             /\ (status r = Passed <-> issues r = [] /\ error r = None)
             /\ (status r = Failed <-> issues r <> [] /\ error r = None)).
  { intros acc e. destruct e; simpl; repeat split; eauto; try discriminate;
      intros [_ H]; discriminate. }
  unfold validate_file.
  destruct (read_text file_path) as [raw_html | e]; [| apply Hexn].
  destruct (BeautifulSoup raw_html) as [soup | e]; [| apply Hexn].
  destruct (run_rules rules soup file_path _ []) as [acc [e |]]; [apply Hexn |].
  destruct acc as [| i acc]; simpl; repeat split; try discriminate; auto;
    try (intros [? ?]; discriminate); try (intros [H _]; congruence).
Qed.

Lemma run_rules_concat (rules : list Rule) (soup : Soup) (file_path : string)
  (raw_lines : list string) (outs : list (list Issue)) (acc : list Issue) :
  Forall2 (returns_on soup file_path raw_lines) rules outs ->
  run_rules rules soup file_path raw_lines acc = (acc ++ concat outs, None).
Proof.
  intros H. revert acc. induction H as [| r found rules outs Hr _ IH]; intros acc; simpl.
  - rewrite app_nil_r. reflexivity.
  - unfold returns_on in Hr. rewrite Hr, IH, <- app_assoc. reflexivity.
Qed.

(** X3: when the file is read and parsed and every rule returns, the
    issues of the result are the rules' issue lists concatenated in
    registration order, and the status is failed exactly when that
    concatenation is not empty. *)
Theorem X3_validate_file_concatenates (read_text : string -> Outcome string)
  (BeautifulSoup : string -> Outcome Soup) (rules : list Rule)
  (file_path raw_html : string) (soup : Soup) (outs : list (list Issue)) :
  read_text file_path = Returned raw_html ->
  BeautifulSoup raw_html = Returned soup ->
  Forall2 (returns_on soup file_path (Py.split_on Py.newline raw_html)) rules outs ->
  let result := validate_file read_text BeautifulSoup rules file_path in
  issues result = concat outs
  /\ error result = None
  /\ (status result = Failed <-> concat outs <> [])
  /\ (status result = Passed <-> concat outs = []).
Proof.
  intros Hread Hparse Hrules. unfold validate_file.
  rewrite Hread, Hparse, (run_rules_concat _ _ _ _ _ [] Hrules). simpl.
  destruct (concat outs); simpl; repeat split; try discriminate; auto; congruence.
Qed.

Lemma X3_validate_file_concatenates_witness :
  let result :=
    validate_file (fun _ => Returned EmptyString) (fun _ => Returned [])
      get_all_rules "chi/index.html" in
  issues result
  = concat [ validate_basic_structure [] "chi/index.html" [EmptyString];
             validate_meta_tags [] "chi/index.html" [EmptyString];
             validate_language_consistency [] "chi/index.html" [EmptyString] ].
Proof.
  apply (X3_validate_file_concatenates (fun _ => Returned EmptyString)
           (fun _ => Returned []) get_all_rules "chi/index.html" EmptyString []
           [ validate_basic_structure [] "chi/index.html" [EmptyString];
             validate_meta_tags [] "chi/index.html" [EmptyString];
             validate_language_consistency [] "chi/index.html" [EmptyString] ]);
    [reflexivity | reflexivity |].
  repeat (constructor; [reflexivity |]). constructor.
Defined.

(** ** The built-in rules *)

Lemma bounded_nil (rid : string) (n w : nat) : bounded_issues rid n w [].
Proof. repeat split; simpl; try lia. constructor. Qed.

Lemma bounded_error (rid msg : string) (ln : option Z) (n w : nat) :
  (1 <= n)%nat -> bounded_issues rid n w [mkIssue rid SevError msg ln].
Proof. intros Hn. repeat split; simpl; try lia. repeat constructor. Qed.

Lemma bounded_warning (rid msg : string) (ln : option Z) (n w : nat) :
  (1 <= n)%nat -> (1 <= w)%nat -> bounded_issues rid n w [mkIssue rid SevWarning msg ln].
Proof. intros Hn Hw. repeat split; simpl; try lia. repeat constructor. Qed.

Lemma bounded_app (rid : string) (n1 w1 n2 w2 : nat) (l1 l2 : list Issue) :
  bounded_issues rid n1 w1 l1 -> bounded_issues rid n2 w2 l2 ->
  bounded_issues rid (n1 + n2) (w1 + w2) (l1 ++ l2).
Proof.
  intros (A1 & A2 & A3) (B1 & B2 & B3). repeat split.
  - rewrite length_app. lia.
  - rewrite List.filter_app, length_app. lia.
  - apply Forall_app. split; assumption.
Qed.

Lemma bounded_weaken (rid : string) (n w n' w' : nat) (l : list Issue) :
  bounded_issues rid n w l -> (n <= n')%nat -> (w <= w')%nat ->
  bounded_issues rid n' w' l.
Proof. intros (A1 & A2 & A3) Hn Hw. repeat split; [lia | lia | exact A3]. Qed.

Lemma class_checks_bounded (c : string) (ln : option Z) :
  bounded_issues "basic-structure" 2 0 (class_checks c ln).
Proof.
  unfold class_checks. destruct (negb (Py.truthy c)).
  - apply bounded_error. lia.
  - apply (bounded_app _ 1 0 1 0).
    + destruct (negb (Py.contains "no-js" c));
        [apply bounded_error; lia | apply bounded_nil].
    + destruct (negb (existsb _ lang_codes));
        [apply bounded_error; lia | apply bounded_nil].
Qed.

Lemma lang_checks_bounded (v : option string) (ln : option Z) :
  bounded_issues "basic-structure" 1 0 (lang_checks v ln).
Proof.
  unfold lang_checks. destruct v as [l |]; [| apply bounded_error; lia].
  destruct (negb (Py.truthy l)); [apply bounded_error; lia |].
  destruct (negb (existsb (String.eqb l) valid_langs));
    [apply bounded_error; lia | apply bounded_nil].
Qed.

Lemma validate_basic_structure_bounded (soup : Soup) (file_path : string)
  (raw_lines : list string) :
  bounded_issues "basic-structure" 4 0
    (validate_basic_structure soup file_path raw_lines).
Proof.
  unfold validate_basic_structure.
  assert (Hd : bounded_issues "basic-structure" 1 0
                 (if negb (existsb mentions_html soup)
                  then [structure_issue "Missing DOCTYPE html declaration" None]
                  else [])).
  { destruct (negb (existsb mentions_html soup));
      [apply bounded_error; lia | apply bounded_nil]. }
  destruct (find "html" soup) as [html_tag |].
  - apply (bounded_app _ 1 0 3 0); [exact Hd |].
    apply (bounded_app _ 2 0 1 0); [apply class_checks_bounded | apply lang_checks_bounded].
  - eapply bounded_weaken;
      [apply (bounded_app _ 1 0 1 0); [exact Hd | apply bounded_error; lia] | lia | lia].
Qed.

Lemma check_directive_bounded (found : option Node) (missing_msg token shape_msg : string)
  (head_line : option Z) :
  bounded_issues "required-meta-tags" 1 1
    (check_directive found missing_msg token shape_msg head_line).
Proof.
  unfold check_directive. destruct found as [m |]; [| apply bounded_error; lia].
  destruct (negb (Py.contains token _)); [apply bounded_warning; lia | apply bounded_nil].
Qed.

Lemma check_present_bounded (found : option Node) (missing_msg : string)
  (head_line : option Z) :
  bounded_issues "required-meta-tags" 1 0 (check_present found missing_msg head_line).
Proof.
  unfold check_present. destruct found; [apply bounded_nil | apply bounded_error; lia].
Qed.

Lemma check_charset_bounded (soup : Soup) (head_line : option Z) :
  bounded_issues "required-meta-tags" 1 0 (check_charset soup head_line).
Proof.
  unfold check_charset. destruct (find_where "meta" has_charset soup) as [m |];
    [| apply bounded_error; lia].
  destruct (negb (String.eqb _ "utf-8")); [apply bounded_error; lia | apply bounded_nil].
Qed.

Lemma check_content_tag_bounded (soup : Soup) (head_line : option Z) (tag : string) :
  bounded_issues "required-meta-tags" 1 0 (check_content_tag soup head_line tag).
Proof.
  unfold check_content_tag. destruct (String.eqb tag "title").
  - destruct (negb (title_ok soup)); [apply bounded_error; lia | apply bounded_nil].
  - apply check_present_bounded.
Qed.

Lemma validate_meta_tags_bounded (soup : Soup) (file_path : string)
  (raw_lines : list string) :
  bounded_issues "required-meta-tags" 10 2 (validate_meta_tags soup file_path raw_lines).
Proof.
  unfold validate_meta_tags. destruct (find "head" soup) as [head |];
    [| apply bounded_error; lia].
  apply (bounded_app _ 1 0 9 2); [apply check_charset_bounded |].
  apply (bounded_app _ 1 1 8 1); [apply check_directive_bounded |].
  apply (bounded_app _ 1 1 7 0); [apply check_directive_bounded |].
  apply (bounded_app _ 1 0 6 0); [apply check_present_bounded |].
  apply (bounded_app _ 1 0 5 0); [apply check_present_bounded |].
  apply (bounded_app _ 1 0 4 0); [apply check_present_bounded |].
  unfold content_meta_tags. cbn [flat_map].
  apply (bounded_app _ 1 0 3 0); [apply check_content_tag_bounded |].
  apply (bounded_app _ 1 0 2 0); [apply check_content_tag_bounded |].
  apply (bounded_app _ 1 0 1 0); [apply check_content_tag_bounded |].
  apply (bounded_app _ 1 0 0 0); [apply check_content_tag_bounded | apply bounded_nil].
Qed.

Lemma validate_language_consistency_bounded (soup : Soup) (file_path : string)
  (raw_lines : list string) :
  bounded_issues "language-consistency" 2 0
    (validate_language_consistency soup file_path raw_lines).
Proof.
  unfold validate_language_consistency.
  destruct (expected_language file_path) as [[code attr] |]; [| apply bounded_nil].
  destruct (find "html" soup) as [html_tag |]; [| apply bounded_nil].
  apply (bounded_app _ 1 0 1 0).
  - destruct (negb (Py.contains code _)); [apply bounded_error; lia | apply bounded_nil].
  - destruct (negb (bool_decide _)); [apply bounded_error; lia | apply bounded_nil].
Qed.

(** X4: the document-shell rule reports at most four issues, the
    locale-path rule at most two, all of severity error; the metadata
    rule reports at most ten, of which at most two are warnings; and
    every issue carries the id its rule is registered under. *)
Theorem X4_builtin_rules_bounded (soup : Soup) (file_path : string)
  (raw_lines : list string) :
  bounded_issues "basic-structure" 4 0
    (validate_basic_structure soup file_path raw_lines)
  /\ bounded_issues "required-meta-tags" 10 2
       (validate_meta_tags soup file_path raw_lines)
  /\ bounded_issues "language-consistency" 2 0
       (validate_language_consistency soup file_path raw_lines).
Proof.
  split; [apply validate_basic_structure_bounded |].
  split; [apply validate_meta_tags_bounded | apply validate_language_consistency_bounded].
Qed.







(** ** Exit code *)

Lemma filter_nil_iff {A} (p : A -> bool) (l : list A) :
  List.filter p l = [] <-> existsb p l = false.
Proof.
  induction l as [| x l IH]; simpl; [tauto |].
  destruct (p x); simpl; [split; discriminate | exact IH].
Qed.

Lemma reported_false_iff (r : FileResult) : reported r = false <-> status r = Passed.
Proof. unfold reported. destruct (status r); simpl; split; congruence. Qed.

(** X6: the exit status is 0 or 1; it is 0 exactly when every result has
    status passed, which is exactly when the [files] list of the
    structured output is empty. *)
Theorem X6_exit_code_zero_iff (results : list FileResult) :
  (exit_code results = 0 \/ exit_code results = 1)
  /\ (exit_code results = 0 <-> Forall (fun r => status r = Passed) results)
  /\ (exit_code results = 0 <->
      exists summary,
        format_json_output results = JDict [("summary", summary); ("files", JList [])]).
Proof.
  unfold exit_code, has_failures.
  assert (Hall : existsb reported results = false
                 <-> Forall (fun r => status r = Passed) results).
  { induction results as [| r l IH]; simpl.
    - split; [constructor | reflexivity].
    - rewrite orb_false_iff, IH, reported_false_iff, Forall_cons. reflexivity. }
  split; [destruct (existsb reported results); auto |]. split.
  - rewrite <- Hall. destruct (existsb reported results); split; congruence.
  - rewrite format_json_output_eq.
    destruct (existsb reported results) eqn:Hex.
    + split; [discriminate |]. intros (summary & Heq). exfalso.
      injection Heq as _ Hfiles.
      apply List.map_eq_nil in Hfiles. apply filter_nil_iff in Hfiles. congruence.
    + split; [| reflexivity]. intros _.
      apply filter_nil_iff in Hex. rewrite Hex. simpl. eauto.
Qed.

(** ** How the locale-path rule and the document-shell rule agree *)

Lemma expected_language_cases (file_path code attr : string) :
  expected_language file_path = Some (code, attr) ->
  (code = "tc" /\ attr = "zh-hant") \/ (code = "en" /\ attr = "en")
  \/ (code = "sc" /\ attr = "zh-hans").
Proof.
  unfold expected_language.
  destruct (Py.contains "/chi/" _); [intros [= <- <-]; auto |].
  destruct (Py.contains "/eng/" _); [intros [= <- <-]; auto |].
  destruct (Py.contains "/schi/" _); [intros [= <- <-]; auto | discriminate].
Qed.

(** X7: under a path that names a language directory, a document with a
    root element on which the locale-path rule reports nothing also passes
    the document-shell rule's checks of the language code and of the
    [lang] attribute: the only issues that rule can still report are the
    missing doctype and the missing [no-js] marker. *)
Theorem X7_language_rule_implies_structure_checks (soup : Soup) (file_path : string)
  (raw_lines : list string) (html_tag : Node) (code attr : string) :
  expected_language file_path = Some (code, attr) ->
  find "html" soup = Some html_tag ->
  validate_language_consistency soup file_path raw_lines = [] ->
  get_attr html_tag "lang" = Some attr
  /\ Py.contains code (class_string html_tag) = true
  /\ lang_checks (get_attr html_tag "lang") (tag_sourceline html_tag) = []
  /\ validate_basic_structure soup file_path raw_lines
     = (if existsb mentions_html soup then []
        else [structure_issue "Missing DOCTYPE html declaration" None])
       ++ (if Py.contains "no-js" (class_string html_tag) then []
           else [structure_issue "HTML class should contain 'no-js'"
                   (tag_sourceline html_tag)]).
Proof.
  intros Hexp Hfind Hnone.
  unfold validate_language_consistency in Hnone. rewrite Hexp, Hfind in Hnone.
  destruct (Py.contains code (class_string html_tag)) eqn:Hcode;
    [| discriminate Hnone].
  simpl in Hnone.
  destruct (bool_decide (get_attr html_tag "lang" = Some attr)) eqn:Hlang;
    [| discriminate Hnone].
  apply bool_decide_eq_true in Hlang.
  assert (Hlc : lang_checks (get_attr html_tag "lang") (tag_sourceline html_tag) = []).
  { rewrite Hlang.
    destruct (expected_language_cases _ _ _ Hexp) as [[_ ->] | [[_ ->] | [_ ->]]];
      reflexivity. }
  split; [exact Hlang |]. split; [reflexivity |]. split; [exact Hlc |].
  rewrite (validate_basic_structure_root _ _ _ _ Hfind), Hlc, app_nil_r.
  f_equal. unfold class_checks. rewrite existsb_lang_codes.
  assert (Hne : Py.truthy (class_string html_tag) = true).
  { destruct (class_string html_tag); [| reflexivity].
    destruct (expected_language_cases _ _ _ Hexp) as [[-> _] | [[-> _] | [-> _]]];
      discriminate Hcode. }
  rewrite Hne. simpl negb.
  assert (Hany : Py.contains "tc" (class_string html_tag)
                 || Py.contains "en" (class_string html_tag)
                 || Py.contains "sc" (class_string html_tag) = true).
  { destruct (expected_language_cases _ _ _ Hexp) as [[-> _] | [[-> _] | [-> _]]];
      rewrite Hcode; rewrite ?orb_true_r; reflexivity. }
  rewrite Hany. simpl. rewrite app_nil_r.
  destruct (Py.contains "no-js" (class_string html_tag)); reflexivity.
Qed.

Lemma X7_language_rule_implies_structure_checks_witness :
  validate_basic_structure conforming_document "d01/k01/chi/index.html" []
  = [] ++ [].
Proof.
  exact (proj2 (proj2 (proj2
           (X7_language_rule_implies_structure_checks conforming_document
              "d01/k01/chi/index.html" []
              (Tag "html" (Some (AList ["no-js"; "tc"])) [("lang", "zh-hant")] (Some 2)
                 [ Tag "head" None [] (Some 3)
                     [ meta [("charset", "utf-8")] 4;
                       meta [("http-equiv", "x-ua-compatible"); ("content", "ie=edge")] 5;
                       meta [("name", "viewport");
                             ("content", "width=device-width, initial-scale=1")] 6;
                       meta [("http-equiv", "Cache-Control"); ("content", "no-cache")] 7;
                       meta [("http-equiv", "Pragma"); ("content", "no-cache")] 8;
                       meta [("http-equiv", "Expires"); ("content", "0")] 9;
                       Tag "title" None [] (Some 10) [NavigableString "Promotion"];
                       meta [("name", "keywords"); ("content", "promotion")] 11;
                       meta [("name", "description"); ("content", "A promotion page")] 12;
                       meta [("name", "summary"); ("content", "Promotion")] 13 ] ])
              "tc" "zh-hant" eq_refl eq_refl eq_refl)))).
Defined.

(** ** Structured output and terminal output *)

Lemma count_passed_reported (results : list FileResult) :
  count_passed results + Z.of_nat (length (List.filter reported results))
  = Z.of_nat (length results).
Proof.
  unfold count_passed. induction results as [| r l IH]; simpl; [reflexivity |].
  unfold reported at 1. destruct (status r); simpl in *; lia.
Qed.

Lemma count_severity_total (l : list Issue) :
  count_severity SevError l + count_severity SevWarning l = Z.of_nat (length l).
Proof.
  unfold count_severity. induction l as [| i l IH]; simpl; [reflexivity |].
  destruct (severity i); simpl in *; lia.
Qed.

Lemma count_severity_nonneg (sev : Severity) (l : list Issue) : 0 <= count_severity sev l.
Proof. unfold count_severity. lia. Qed.

Lemma sum_severity_total (results : list FileResult) :
  sum_severity SevError results + sum_severity SevWarning results
  = Z.of_nat (length (flat_map issues results)).
Proof.
  unfold sum_severity. induction results as [| r l IH]; simpl; [reflexivity |].
  rewrite length_app. pose proof (count_severity_total (issues r)). lia.
Qed.

(** X8: in the structured output, [passed + failed] is [total_files],
    [failed] is the number of entries of the [files] list, and
    [total_errors + total_warnings] is the number of issues carried by the
    results that are listed there. *)
Theorem X8_json_summary_coherent (results : list FileResult) :
  exists passed failed errors warnings files,
    format_json_output results
    = JDict [ ("summary",
               JDict [ ("total_files", JInt (Z.of_nat (length results)));
                       ("passed", JInt passed);
                       ("failed", JInt failed);
                       ("total_errors", JInt errors);
                       ("total_warnings", JInt warnings) ]);
              ("files", JList files) ]
    /\ passed + failed = Z.of_nat (length results)
    /\ 0 <= passed
    /\ failed = Z.of_nat (length files)
    /\ errors + warnings
       = Z.of_nat (length (flat_map issues (List.filter reported results))).
Proof.
  do 5 eexists. split; [apply format_json_output_eq |].
  pose proof (count_passed_reported results) as Hc.
  split; [lia |]. split; [unfold count_passed; lia |].
  split; [rewrite List.length_map; lia | apply sum_severity_total].
Qed.

Lemma console_fold (pal : Palette) (results : list FileResult) (st : ConsoleState) :
  fold_left (console_step pal) results st
  = mkConsole
      (output st ++ flat_map (result_lines pal) results)
      (total_errors st + sum_severity SevError results)
      (total_warnings st + sum_severity SevWarning results)
      (passed_count st + count_passed results)
      (failed_count st + (Z.of_nat (length results) - count_passed results)).
Proof.
  revert st. induction results as [| r l IH]; intros st.
  - destruct st. simpl. rewrite app_nil_r, !Z.add_0_r. reflexivity.
  - cbn [fold_left]. rewrite IH. unfold console_step, count_passed, sum_severity.
    cbn [flat_map output total_errors total_warnings passed_count failed_count].
    rewrite <- app_assoc. cbn [fold_right length List.filter].
    destruct (status r); simpl bool_decide; cbn [length]; f_equal; lia.
Qed.


Lemma sum_severity_filter_le (sev : Severity) (p : FileResult -> bool)
  (results : list FileResult) :
  sum_severity sev (List.filter p results) <= sum_severity sev results.
Proof.
  unfold sum_severity. induction results as [| r l IH]; simpl; [lia |].
  pose proof (count_severity_nonneg sev (issues r)).
  destruct (p r); simpl; lia.
Qed.

Lemma sum_severity_filter_eq (sev : Severity) (p : FileResult -> bool)
  (results : list FileResult) :
  Forall (fun r => p r = false -> issues r = []) results ->
  sum_severity sev (List.filter p results) = sum_severity sev results.
Proof.
  unfold sum_severity. intros H. induction H as [| r l Hr _ IH]; simpl; [reflexivity |].
  destruct (p r); simpl; [lia |]. rewrite (Hr eq_refl). simpl. exact IH.
Qed.

Lemma filter_failed_reported (results : list FileResult) :
  List.filter is_failed (List.filter reported results) = List.filter is_failed results.
Proof.
  induction results as [| r l IH]; [reflexivity |].
  cbn [List.filter].
  assert (Hr : reported r = true \/ (reported r = false /\ is_failed r = false)).
  { unfold reported, is_failed. destruct (status r); simpl; auto. }
  destruct Hr as [-> | [-> Hf]].
  - cbn [List.filter]. rewrite IH. reflexivity.
  - rewrite Hf. exact IH.
Qed.

(** X10: the three reporters count issues over different results: the
    HTML summary over the failed ones, the structured output over the
    failed and error ones, the terminal summary over all of them.  So the
    HTML totals are at most the structured ones, which are at most the
    terminal ones; the three agree whenever only failed results carry
    issues. *)
Theorem X10_reporter_totals (pal : Palette) (results : list FileResult)
  (base_path : string) (sev : Severity) :
  let html := html_totals sev results in
  let json :=
    match sev with
    | SevError => (json_loop results (0, 0, [])).1.1
    | SevWarning => (json_loop results (0, 0, [])).1.2
    end in
  let console :=
    match sev with
    | SevError => total_errors (console_loop pal results base_path)
    | SevWarning => total_warnings (console_loop pal results base_path)
    end in
  html <= json <= console
  /\ (Forall result_invariant results -> html = json /\ json = console).
Proof.
  intros html json console.
  assert (Hh : html = sum_severity sev (List.filter is_failed results)).
  { subst html. unfold html_totals. rewrite html_totals_fold. lia. }
  assert (Hj : json = sum_severity sev (List.filter reported results)).
  { subst json. rewrite json_loop_spec. destruct sev; simpl; lia. }
  assert (Hc : console = sum_severity sev results).
  { subst console. unfold console_loop. rewrite console_fold.
    destruct sev; simpl; lia. }
  rewrite Hh, Hj, Hc. split.
  - split; [| apply sum_severity_filter_le].
    rewrite <- filter_failed_reported. apply sum_severity_filter_le.
  - intros Hinv.
    assert (Hf : sum_severity sev (List.filter is_failed results)
                 = sum_severity sev results).
    { apply sum_severity_filter_eq. eapply List.Forall_impl; [| exact Hinv].
      simpl. intros r Hr Hnf. unfold result_invariant in Hr. unfold is_failed in Hnf.
      apply bool_decide_eq_false in Hnf.
      destruct (issues r); [reflexivity |]. exfalso. apply Hnf, Hr. discriminate. }
    assert (Hr : sum_severity sev (List.filter reported results)
                 = sum_severity sev results).
    { apply sum_severity_filter_eq. eapply List.Forall_impl; [| exact Hinv].
      simpl. intros r Hr Hnr. unfold result_invariant in Hr.
      apply reported_false_iff in Hnr.
      destruct (issues r); [reflexivity |]. exfalso.
      assert (status r = Failed) by (apply Hr; discriminate). congruence. }
    lia.
Qed.

Lemma X10_reporter_totals_witness :
  let results :=
    [ mkResult "a.html" Failed [mkIssue "basic-structure" SevError "Missing <html> tag" None]
        None;
      mkResult "b.html" Error [] (Some "File not found: b.html") ] in
  html_totals SevError results = (json_loop results (0, 0, [])).1.1
  /\ (json_loop results (0, 0, [])).1.1
     = total_errors (console_loop (mkPalette "" "" "" "") results ".").
Proof.
  intros results.
  apply (proj2 (X10_reporter_totals (mkPalette "" "" "" "") results "." SevError)).
  repeat constructor; unfold result_invariant; simpl; congruence.
Defined.

(** ** Rule-major aggregation *)

Lemma size_list_to_set_le (l : list string) :
  (size (list_to_set l : gset string) <= length l)%nat.
Proof.
  induction l as [| x l IH].
  - rewrite list_to_set_nil, size_empty. simpl. lia.
  - rewrite list_to_set_cons, size_union_alt, size_singleton. cbn [length].
    assert (size (list_to_set l ∖ {[x]} : gset string) <= size (list_to_set l : gset string))%nat
      by (apply subseteq_size; set_solver).
    lia.
Qed.

Lemma filter_length_le {A} (p : A -> bool) (l : list A) :
  (length (List.filter p l) <= length l)%nat.
Proof. induction l as [| x l IH]; simpl; [lia |]. destruct (p x); simpl; lia. Qed.

Lemma filter_fails_rule_failed (rid : string) (results : list FileResult) :
  (length (List.filter (fails_rule rid) results)
   <= length (List.filter is_failed results))%nat.
Proof.
  induction results as [| r l IH]; simpl; [lia |].
  unfold fails_rule at 1, is_failed at 1.
  destruct (bool_decide (status r = Failed)); simpl; [| exact IH].
  destruct (issues_for rid (issues r)); simpl; lia.
Qed.

(** X11: the [failures] list of a registered rule has, in input order,
    one entry for each failed result that carries an issue for the rule;
    the entry holds the result's path and exactly its issues for that rule,
    in their original order, and is never empty. *)
Theorem X11_failures_listing (results : list FileResult) (all_rules : list Rule)
  (rid : string) :
  rid ∈ registered_ids all_rules ->
  exists agg,
    group_issues_by_rule results all_rules !! rid = Some agg
    /\ failures agg
       = List.map (fun r => mkFailure (path r)
                              (List.filter (fun i => bool_decide (rule i = rid)) (issues r)))
           (List.filter (fails_rule rid) results)
    /\ Forall (fun f => failure_issues f <> []
                        /\ Forall (fun i => rule i = rid) (failure_issues f))
              (failures agg).
Proof.
  intros Hin.
  destruct (proj1 (group_issues_by_rule_lookup results all_rules rid) Hin)
    as (d & _ & Hlk).
  eexists. split; [exact Hlk |]. split; [reflexivity |].
  simpl. unfold expected_failures. apply List.Forall_forall. intros f Hf.
  apply List.in_map_iff in Hf as (r & <- & Hr). simpl.
  apply List.filter_In in Hr as [_ Hfail]. unfold fails_rule in Hfail.
  apply andb_true_iff in Hfail as [_ Hne]. split.
  - destruct (issues_for rid (issues r)); [discriminate | discriminate].
  - apply List.Forall_forall. intros i Hi. unfold issues_for in Hi.
    apply List.filter_In in Hi as [_ Hi]. apply bool_decide_eq_true in Hi. exact Hi.
Qed.

Lemma X11_failures_listing_witness :
  exists agg,
    group_issues_by_rule script_results get_all_rules !! "basic-structure" = Some agg
    /\ failures agg
       = [ mkFailure "chi/<b>.html"
             [ mkIssue "basic-structure" SevError "<script>alert(1)</script>" None ] ].
Proof.
  destruct (X11_failures_listing script_results get_all_rules "basic-structure")
    as (agg & Hlk & Hf & _).
  - unfold registered_ids. simpl. set_solver.
  - exists agg. split; [exact Hlk |]. rewrite Hf. reflexivity.
Defined.

(** X12: for a registered rule, [failed_files] lies between 0 and the
    number of failure entries, which is at most the number of failed
    results; so [passed_files] is at least the number of results that
    are not failed, error results included.  When the paths of the results
    are pairwise distinct, [failed_files] is the number of failure
    entries. *)
Theorem X12_aggregate_count_bounds (results : list FileResult) (all_rules : list Rule)
  (rid : string) :
  rid ∈ registered_ids all_rules ->
  exists agg,
    group_issues_by_rule results all_rules !! rid = Some agg
    /\ 0 <= failed_files agg <= Z.of_nat (length (failures agg))
    /\ (length (failures agg) <= length (List.filter is_failed results))%nat
    /\ Z.of_nat (length results) - Z.of_nat (length (List.filter is_failed results))
       <= passed_files agg <= total_files agg
    /\ (NoDup (List.map path results) ->
        failed_files agg = Z.of_nat (length (failures agg))).
Proof.
  intros Hin.
  destruct (proj1 (group_issues_by_rule_lookup results all_rules rid) Hin)
    as (d & _ & Hlk).
  eexists. split; [exact Hlk |]. simpl.
  assert (Hlen : length (expected_failures rid results)
                 = length (List.filter (fails_rule rid) results)).
  { unfold expected_failures. apply List.length_map. }
  assert (Hsize : (size (failing_paths rid results)
                   <= length (List.filter (fails_rule rid) results))%nat).
  { unfold failing_paths.
    etransitivity; [apply size_list_to_set_le |]. rewrite List.length_map. lia. }
  pose proof (filter_fails_rule_failed rid results) as Hff.
  pose proof (filter_length_le is_failed results) as Hfl.
  rewrite Hlen. repeat split; try lia.
  intros Hnd. unfold failing_paths. rewrite size_list_to_set.
  - rewrite List.length_map. reflexivity.
  - clear -Hnd. induction results as [| r l IH]; simpl; [constructor |].
    apply NoDup_cons in Hnd as [Hr Hnd].
    destruct (fails_rule rid r); simpl; [| apply IH; exact Hnd].
    apply NoDup_cons. split; [| apply IH; exact Hnd].
    intros Hin. apply Hr. apply list_elem_of_In in Hin. apply list_elem_of_In.
    apply List.in_map_iff in Hin as (r' & Hp & Hin).
    apply List.in_map_iff. exists r'. split; [exact Hp |].
    apply List.filter_In in Hin. tauto.
Qed.

Lemma X12_aggregate_count_bounds_witness :
  exists agg,
    group_issues_by_rule
      [ mkResult "a.html" Error [] (Some "File not found: a.html") ] get_all_rules
      !! "basic-structure" = Some agg
    /\ 1 - 0 <= passed_files agg <= total_files agg.
Proof.
  destruct (X12_aggregate_count_bounds
              [ mkResult "a.html" Error [] (Some "File not found: a.html") ]
              get_all_rules "basic-structure")
    as (agg & Hlk & _ & _ & Hp & _).
  - unfold registered_ids. simpl. set_solver.
  - exists agg. split; [exact Hlk | exact Hp].
Defined.

Lemma init_grouped_description (n : Z) (all_rules : list Rule)
  (m : gmap string RuleAggregate) (rid : string) :
  agg_description
    <$> (fold_left (fun (grouped : gmap string RuleAggregate) r =>
                      <[rule_id r := mkAggregate (description r) n 0 0 []]> grouped)
                   all_rules m !! rid)
  = fold_left (fun acc r => if bool_decide (rule_id r = rid) then Some (description r) else acc)
              all_rules (agg_description <$> m !! rid).
Proof.
  revert m. induction all_rules as [| r rules IH]; intros m; simpl; [reflexivity |].
  rewrite IH. f_equal. case_bool_decide as Hr.
  - subst. rewrite lookup_insert_eq. reflexivity.
  - rewrite lookup_insert_ne by exact Hr. reflexivity.
Qed.

Lemma group_issues_by_rule_dom (results : list FileResult) (all_rules : list Rule) :
  dom (group_issues_by_rule results all_rules)
  = (list_to_set (registered_ids all_rules) : gset string).
Proof.
  apply set_eq. intros rid. rewrite elem_of_dom, elem_of_list_to_set.
  destruct (group_issues_by_rule_lookup results all_rules rid) as [H1 H2].
  cbv zeta in H1, H2. unfold registered_ids. split.
  - intros [agg Hagg].
    destruct (decide (rid ∈ List.map rule_id all_rules)) as [Hin | Hnin];
      [exact Hin |].
    rewrite (H2 Hnin) in Hagg. discriminate.
  - intros Hin. destruct (H1 Hin) as (d & _ & ->). eauto.
Qed.

(** X13: the aggregate has exactly the registered rule ids as its keys,
    whatever the results are; when an id is registered more than once
    there is one entry for it, described by the last registration. *)
Theorem X13_aggregate_keys (results : list FileResult) (all_rules : list Rule) :
  dom (group_issues_by_rule results all_rules)
  = (list_to_set (registered_ids all_rules) : gset string)
  /\ (forall rid,
        agg_description <$> group_issues_by_rule results all_rules !! rid
        = last_description rid all_rules).
Proof.
  split; [apply group_issues_by_rule_dom |].
  - intros rid. unfold last_description.
    pose proof (init_grouped_description (Z.of_nat (length results)) all_rules ∅ rid)
      as Hd.
    rewrite lookup_empty in Hd. simpl in Hd. rewrite <- Hd.
    destruct (group_issues_by_rule_lookup results all_rules rid) as [H1 H2].
    cbv zeta in H1, H2.
    destruct (decide (rid ∈ List.map rule_id all_rules)) as [Hin | Hnin].
    + destruct (H1 Hin) as (d & Hinit & ->). unfold init_grouped in Hinit.
      rewrite Hinit. reflexivity.
    + rewrite (H2 Hnin).
      pose proof (proj2 (init_grouped_lookup (Z.of_nat (length results)) all_rules rid)
                    Hnin) as Hnone.
      unfold init_grouped in Hnone. rewrite Hnone. reflexivity.
Qed.

(** X14: in the statistics of the HTML summary, [rules_passed] and
    [rules_failed] are not negative and add up to the number of distinct
    registered rule ids, and [rules_failed] counts the rules with at least
    one failing file. *)
Theorem X14_html_statistics (results : list FileResult) (all_rules : list Rule) :
  exists rules_passed rules_failed errors warnings,
    html_statistics results all_rules
    = (Z.of_nat (length results), rules_passed, rules_failed, errors, warnings)
    /\ 0 <= rules_passed /\ 0 <= rules_failed
    /\ rules_passed + rules_failed
       = Z.of_nat (size (list_to_set (registered_ids all_rules) : gset string))
    /\ rules_failed
       = Z.of_nat (length (List.filter (fun kv => negb (rule_passed kv))
                             (map_to_list (group_issues_by_rule results all_rules)))).
Proof.
  unfold html_statistics. do 4 eexists. split; [reflexivity |].
  set (grouped := group_issues_by_rule results all_rules).
  assert (Hsize : size grouped = length (map_to_list grouped))
    by (symmetry; apply length_map_to_list).
  assert (Hsplit : (length (List.filter rule_passed (map_to_list grouped))
                    + length (List.filter (fun kv => negb (rule_passed kv))
                                (map_to_list grouped))
                    = length (map_to_list grouped))%nat).
  { generalize (map_to_list grouped). intros l.
    induction l as [| x l IH]; simpl; [reflexivity |].
    destruct (rule_passed x); simpl; lia. }
  assert (Hdom : size grouped
                 = size (list_to_set (registered_ids all_rules) : gset string)).
  { rewrite <- (group_issues_by_rule_dom results all_rules).
    symmetry. apply size_dom. }
  change (fun kv : string * RuleAggregate => Z.eqb (failed_files (snd kv)) 0)
    with rule_passed.
  rewrite <- Hdom, Hsize. repeat split; lia.
Qed.

(** ** Order of the rules in the HTML report *)

Lemma key_le_total (x y : string * RuleAggregate) :
  key_le x y = true \/ key_le y x = true.
Proof.
  unfold key_le.
  destruct (Z.eqb (failed_files (snd x)) 0), (Z.eqb (failed_files (snd y)) 0); simpl;
    auto using String.leb_total.
Qed.

Lemma insert_sorted_Sorted (x : string * RuleAggregate)
  (l : list (string * RuleAggregate)) :
  Sorted (fun a b => key_le a b = true) l ->
  Sorted (fun a b => key_le a b = true) (insert_sorted x l).
Proof.
  intros H. induction H as [| y l Hl IH Hhd]; simpl.
  - repeat constructor.
  - destruct (key_le x y) eqn:Hxy.
    + constructor; [constructor; assumption | constructor; exact Hxy].
    + constructor; [exact IH |].
      assert (Hyx : key_le y x = true)
        by (destruct (key_le_total x y); congruence).
      destruct Hhd as [| z l Hyz]; simpl.
      * constructor. exact Hyx.
      * destruct (key_le x z); constructor; assumption.
Qed.

Lemma insert_sorted_Permutation (x : string * RuleAggregate)
  (l : list (string * RuleAggregate)) :
  Permutation (insert_sorted x l) (x :: l).
Proof.
  induction l as [| y l IH]; simpl; [reflexivity |].
  destruct (key_le x y); [reflexivity |].
  rewrite IH. apply perm_swap.
Qed.

Lemma sorted_rules_Sorted (grouped : gmap string RuleAggregate) :
  Sorted (fun a b => key_le a b = true) (sorted_rules grouped).
Proof.
  unfold sorted_rules. induction (map_to_list grouped) as [| x l IH]; simpl.
  - constructor.
  - apply insert_sorted_Sorted. exact IH.
Qed.

Lemma Sorted_app_r {A} (R : A -> A -> Prop) (l1 l2 : list A) :
  Sorted R (l1 ++ l2) -> Sorted R l2.
Proof.
  induction l1 as [| x l1 IH]; simpl; [auto |].
  intros H. apply Sorted_inv in H as [H _]. auto.
Qed.

Lemma key_le_passed (x y : string * RuleAggregate) :
  key_le x y = true -> rule_passed x = true -> rule_passed y = true.
Proof.
  unfold key_le, rule_passed. intros H Hx. rewrite Hx in H.
  destruct (Z.eqb (failed_files (snd y)) 0); [reflexivity | discriminate].
Qed.

Lemma Sorted_passed_tail (x : string * RuleAggregate)
  (l : list (string * RuleAggregate)) :
  Sorted (fun a b => key_le a b = true) (x :: l) ->
  rule_passed x = true -> Forall (fun y => rule_passed y = true) l.
Proof.
  revert x. induction l as [| y l IH]; intros x H Hx; [constructor |].
  apply Sorted_inv in H as [Hl Hhd]. inversion Hhd as [| ? ? Hxy]; subst.
  pose proof (key_le_passed _ _ Hxy Hx) as Hy.
  constructor; [exact Hy | apply (IH y Hl Hy)].
Qed.

(** X15: the rules of the report are the entries of the aggregate,
    rearranged so that every entry compares below or equal to its
    successor under the key (no failing file?, rule id); in particular no
    rule without failing files comes before a rule with failing files. *)
Theorem X15_sorted_rules (grouped : gmap string RuleAggregate) :
  Permutation (sorted_rules grouped) (map_to_list grouped)
  /\ Sorted (fun a b => key_le a b = true) (sorted_rules grouped)
  /\ (forall l1 x l2,
        sorted_rules grouped = l1 ++ x :: l2 ->
        failed_files (snd x) = 0 ->
        Forall (fun y => failed_files (snd y) = 0) l2)
  /\ (forall l1 x y l2,
        sorted_rules grouped = l1 ++ x :: y :: l2 ->
        rule_passed x = rule_passed y ->
        String.leb (fst x) (fst y) = true).
Proof.
  split; [| split; [| split]].
  - unfold sorted_rules. induction (map_to_list grouped) as [| x l IH]; simpl.
    + reflexivity.
    + rewrite insert_sorted_Permutation, IH. reflexivity.
  - apply sorted_rules_Sorted.
  - intros l1 x l2 Heq Hx.
    pose proof (sorted_rules_Sorted grouped) as Hs. rewrite Heq in Hs.
    apply Sorted_app_r in Hs.
    assert (Hp : rule_passed x = true) by (unfold rule_passed; rewrite Hx; reflexivity).
    eapply List.Forall_impl; [| apply (Sorted_passed_tail x l2 Hs Hp)].
    simpl. unfold rule_passed. intros y Hy. apply Z.eqb_eq. exact Hy.
  - intros l1 x y l2 Heq Hxy.
    pose proof (sorted_rules_Sorted grouped) as Hs. rewrite Heq in Hs.
    apply Sorted_app_r in Hs. apply Sorted_inv in Hs as [_ Hhd].
    inversion Hhd as [| ? ? Hle]; subst. unfold key_le in Hle.
    unfold rule_passed in Hxy. rewrite Hxy in Hle.
    rewrite Bool.eqb_reflx in Hle. exact Hle.
Qed.

Lemma X15_sorted_rules_witness :
  Forall (fun y : string * RuleAggregate => failed_files (snd y) = 0)
    [ ("required-meta-tags", mkAggregate "Check required meta tags" 1 1 0 []) ].
Proof.
  apply (proj1 (proj2 (proj2
           (X15_sorted_rules (group_issues_by_rule script_results get_all_rules))))
           [ ("basic-structure",
              mkAggregate "Check DOCTYPE and html tag" 1 0 1
                [ mkFailure "chi/<b>.html"
                    [ mkIssue "basic-structure" SevError "<script>alert(1)</script>"
                        None ] ]) ]
           ("language-consistency",
            mkAggregate "Check language consistency with file path" 1 1 0 []));
    [vm_compute; reflexivity | reflexivity].
Defined.

(** ** Shape of a snippet *)

Lemma range_length (a b : Z) : length (range a b) = Z.to_nat (b - a).
Proof. unfold range. rewrite List.length_map, length_seq. reflexivity. Qed.

Lemma range_In (a b n : Z) : a <= n < b -> In n (range a b).
Proof.
  intros H. unfold range. apply List.in_map_iff.
  exists (Z.to_nat (n - a)). split; [lia |]. apply in_seq. lia.
Qed.

Lemma range_empty (a b : Z) : b <= a -> range a b = [].
Proof.
  intros H. unfold range. replace (Z.to_nat (b - a)) with 0%nat by lia. reflexivity.
Qed.

(** X16: when the file can be read and the context width is not
    negative, the snippet has at most [2 * context + 1] lines with
    consecutive numbers; it contains the requested line, without its line
    end, whenever that line exists in the file, and it is empty when the
    requested line lies more than [context] lines past the end of the
    file. *)
Theorem X16_snippet_shape (readlines : string -> Outcome (list string))
  (file_path : string) (line_num context : Z) (lines : list string) :
  readlines file_path = Returned lines ->
  0 <= context ->
  exists snippet,
    extract_code_snippet readlines file_path line_num context = Returned snippet
    /\ Z.of_nat (length snippet) <= 2 * context + 1
    /\ (length snippet <= length lines)%nat
    /\ List.map fst snippet
       = range (Z.max 1 (line_num - context))
               (Z.min (Z.of_nat (length lines)) (line_num + context) + 1)
    /\ (1 <= line_num <= Z.of_nat (length lines) ->
        In (line_num,
            Py.rstrip_nl (nth (Z.to_nat (line_num - 1)) lines EmptyString)) snippet)
    /\ (Z.of_nat (length lines) + context < line_num -> snippet = []).
Proof.
  intros Hread Hctx. eexists.
  split; [apply extract_code_snippet_window; exact Hread |].
  rewrite List.length_map, range_length, List.map_map. simpl.
  split; [lia |]. split; [lia |]. split; [apply List.map_id |]. split.
  - intros Hin. apply List.in_map_iff. exists line_num.
    split; [reflexivity | apply range_In; lia].
  - intros Hfar. rewrite range_empty by lia. reflexivity.
Qed.

Lemma X16_snippet_shape_witness :
  exists snippet,
    extract_code_snippet (fun _ => Returned ["a" +:+ Py.nl; "b" +:+ Py.nl; "c"])
      "index.html" 2 1 = Returned snippet
    /\ Z.of_nat (length snippet) <= 2 * 1 + 1
    /\ In (2, "b") snippet.
Proof.
  destruct (X16_snippet_shape
              (fun _ => Returned ["a" +:+ Py.nl; "b" +:+ Py.nl; "c"])
              "index.html" 2 1 ["a" +:+ Py.nl; "b" +:+ Py.nl; "c"] eq_refl)
    as (snippet & Hs & Hlen & _ & _ & Hin & _); [lia |].
  exists snippet. split; [exact Hs |]. split; [exact Hlen |].
  apply Hin. simpl. lia.
Defined.

(** ** The summary section of the HTML report *)

Lemma opens_only_app (tags : list string) (a b : string) :
  opens_only tags a = true -> opens_only tags b = true ->
  opens_only tags (a +:+ b) = true.
Proof.
  intros Ha Hb. induction a as [| c a IH]; [exact Hb |].
  simpl in Ha. apply andb_true_iff in Ha as [Hc Ha].
  change (String c a +:+ b) with (String c (a +:+ b)).
  cbn [opens_only]. apply andb_true_iff. split; [| apply IH; exact Ha].
  destruct (Ascii.eqb c "<"); [| reflexivity].
  apply existsb_exists in Hc as (t & Hin & Ht). apply existsb_exists.
  exists t. split; [exact Hin |]. apply (prefix_app t (String c a) b). exact Ht.
Qed.

Lemma lacks_opens_only (tags : list string) (s : string) :
  lacks "<" s = true -> opens_only tags s = true.
Proof.
  induction s as [| c s IH]; [reflexivity |]. simpl. intros H.
  apply andb_true_iff in H as [Hc Hs]. apply negb_true_iff in Hc.
  rewrite Hc. simpl. apply IH. exact Hs.
Qed.

Lemma str_int_lacks (n : Z) : lacks "<" (Py.str_int n) = true.
Proof.
  unfold Py.str_int, NilZero.string_of_int.
  destruct (Z.to_int n) as [d | d].
  - apply nilzero_string_of_uint_lacks.
  - cbn [lacks]. rewrite nilzero_string_of_uint_lacks. reflexivity.
Qed.

Lemma opens_only_no_script (tags : list string) (s : string) :
  forallb (fun t => negb (String.prefix t "<script") && negb (String.prefix "<script" t))
          tags = true ->
  opens_only tags s = true -> Py.contains "<script" s = false.
Proof.
  intros Htags. induction s as [| c s IH]; [reflexivity |].
  intros H. simpl in H. apply andb_true_iff in H as [Hc Hs].
  change (Py.contains "<script" (String c s))
    with (String.prefix "<script" (String c s) || Py.contains "<script" s).
  rewrite (IH Hs), orb_false_r.
  destruct (String.prefix "<script" (String c s)) eqn:Hp; [| reflexivity].
  assert (c = "<"%char) as ->.
  { rewrite prefix_cons in Hp.
    destruct (ascii_dec "<" c); [congruence | discriminate]. }
  change (existsb (fun t => String.prefix t (String "<" s)) tags = true) in Hc.
  apply existsb_exists in Hc as (t & Hin & Ht).
  rewrite forallb_forall in Htags. specialize (Htags t Hin).
  apply andb_true_iff in Htags as [H1 H2].
  apply negb_true_iff in H1. apply negb_true_iff in H2.
  destruct (prefix_comparable _ _ _ Ht Hp); congruence.
Qed.

Ltac opens_tac :=
  lazymatch goal with
  | |- opens_only _ (Py.html_escape _) = true =>
      apply lacks_opens_only, html_escape_lacks; left; reflexivity
  | |- opens_only _ (Py.str_int _) = true => apply lacks_opens_only, str_int_lacks
  | |- opens_only _ (_ +:+ _) = true =>
      first [ reflexivity | apply opens_only_app; opens_tac ]
  | |- _ => reflexivity
  end.

(** X17: whatever the timestamp, the base path and the five numbers are,
    every less-than sign of the summary section opens one of the
    template's own tags, so the base path cannot put markup such as
    [<script] into the report. *)
Theorem X17_summary_escapes_path (timestamp base_path : string)
  (total_files rules_passed rules_failed errors warnings : Z) :
  opens_only summary_tags
    (_generate_html_summary timestamp base_path total_files rules_passed rules_failed
       errors warnings) = true
  /\ Py.contains "<script"
       (_generate_html_summary timestamp base_path total_files rules_passed rules_failed
          errors warnings) = false.
Proof.
  assert (H : opens_only summary_tags
                (_generate_html_summary timestamp base_path total_files rules_passed
                   rules_failed errors warnings) = true).
  { unfold _generate_html_summary. destruct (Z.eqb rules_failed 0); opens_tac. }
  split; [exact H |]. apply (opens_only_no_script summary_tags); [reflexivity | exact H].
Qed.

(** ** Directory detection and file discovery *)







Lemma endswith_app (t pre s : string) :
  endswith t s = true -> endswith t (pre +:+ s) = true.
Proof.
  intros H. induction pre as [| c pre IH]; [exact H |].
  change (String c pre +:+ s) with (String c (pre +:+ s)).
  cbn [endswith]. rewrite IH. apply orb_true_r.
Qed.

Section DiscoveryFacts.

Variable walk : string -> list (string * list string * list string).
Variable path_join : string -> string -> string.
Hypothesis path_join_keeps_name :
  forall root file, exists pre, path_join root file = pre +:+ file.

Lemma collect_html_spec (html_files : list string)
  (entry : string * list string * list string) :
  collect_html path_join html_files entry
  = html_files
    ++ List.map (path_join entry.1.1) (List.filter (endswith ".html") entry.2).
Proof.
  destruct entry as [[root dirs] files]. unfold collect_html. simpl.
  revert html_files. induction files as [| f files IH]; intros html_files; simpl.
  - rewrite app_nil_r. reflexivity.
  - rewrite IH. destruct (endswith ".html" f); simpl; [| reflexivity].
    rewrite <- app_assoc. reflexivity.
Qed.

Lemma find_html_files_spec (base_path : string) :
  find_html_files walk path_join base_path
  = flat_map (fun entry =>
                List.map (path_join entry.1.1)
                         (List.filter (endswith ".html") entry.2))
             (walk base_path).
Proof.
  unfold find_html_files.
  assert (H : forall l acc,
             fold_left (collect_html path_join) l acc
             = acc ++ flat_map (fun entry =>
                                  List.map (path_join entry.1.1)
                                           (List.filter (endswith ".html") entry.2)) l).
  { induction l as [| entry l IH]; intros acc; simpl.
    - rewrite app_nil_r. reflexivity.
    - rewrite IH, collect_html_spec, <- app_assoc. reflexivity. }
  apply (H (walk base_path) []).
Qed.

Lemma find_html_files_endswith (base_path : string) :
  Forall (fun p => endswith ".html" p = true)
         (find_html_files walk path_join base_path).
Proof.
  rewrite find_html_files_spec. apply List.Forall_forall. intros p Hp.
  apply List.in_flat_map in Hp as (entry & _ & Hp).
  apply List.in_map_iff in Hp as (f & <- & Hf).
  apply List.filter_In in Hf as [_ Hf].
  destruct (path_join_keeps_name entry.1.1 f) as [pre ->].
  apply endswith_app. exact Hf.
Qed.

End DiscoveryFacts.

(** X19: provided joining a directory and a file name yields a path that
    ends with the file name, [find_html_files] returns, in walk order, one
    path for each walked file whose name ends with [.html] (in exactly
    that spelling) and nothing else: every returned path ends with
    [.html]. *)
Theorem X19_find_html_files
  (walk : string -> list (string * list string * list string))
  (path_join : string -> string -> string) (base_path : string) :
  (forall root file, exists pre, path_join root file = pre +:+ file) ->
  find_html_files walk path_join base_path
  = flat_map (fun entry =>
                List.map (path_join entry.1.1)
                         (List.filter (endswith ".html") entry.2))
             (walk base_path)
  /\ Forall (fun p => endswith ".html" p = true)
            (find_html_files walk path_join base_path).
Proof.
  intros Hjoin. split.
  - apply find_html_files_spec.
  - apply find_html_files_endswith. exact Hjoin.
Qed.

Lemma posix_join_keeps_name (root file : string) :
  exists pre, posix_join root file = pre +:+ file.
Proof.
  unfold posix_join. destruct (String.prefix "/" file).
  - exists EmptyString. reflexivity.
  - destruct (bool_decide (root = EmptyString) || endswith "/" root).
    + exists root. reflexivity.
    + exists (root +:+ "/"). clear. induction root as [| c r IH].
      * reflexivity.
      * change (String c (r +:+ "/" +:+ file) = String c ((r +:+ "/") +:+ file)).
        rewrite IH. reflexivity.
Qed.

Lemma X19_find_html_files_witness :
  Forall (fun p => endswith ".html" p = true)
    (find_html_files
       (fun _ => [ ("site", ["chi"], ["index.html"; "notes.txt"; "OLD.HTML"]);
                   ("site/chi", [], ["a.html"]) ])
       posix_join "site").
Proof.
  apply (X19_find_html_files
           (fun _ => [ ("site", ["chi"], ["index.html"; "notes.txt"; "OLD.HTML"]);
                       ("site/chi", [], ["a.html"]) ])
           posix_join "site").
  exact posix_join_keeps_name.
Defined.

(** ** Paths as the locale-path rule reads them *)

Lemma replace_backslash (s : string) : Py.replace backslash "/" s = slashify s.
Proof.
  unfold Py.replace, backslash. induction s as [| c s IH]; [reflexivity |].
  cbn [Py.replace_from slashify]. rewrite prefix_cons, prefix_nil.
  destruct (ascii_dec (ascii_of_nat 92) c) as [<- | Hne].
  - simpl Nat.pred. rewrite IH. reflexivity.
  - rewrite IH. destruct (Ascii.eqb_spec c (ascii_of_nat 92)); [congruence | reflexivity].
Qed.

Lemma lower_ascii_idem (c : ascii) :
  Py.lower_ascii (Py.lower_ascii c) = Py.lower_ascii c.
Proof.
  destruct c as [[] [] [] [] [] [] [] []]; reflexivity.
Qed.

Lemma lower_idem (s : string) : Py.lower (Py.lower s) = Py.lower s.
Proof.
  induction s as [| c s IH]; simpl; [reflexivity |].
  rewrite lower_ascii_idem, IH. reflexivity.
Qed.

Lemma lower_slashify (s : string) : Py.lower (slashify s) = slashify (Py.lower s).
Proof.
  induction s as [| c s IH]; simpl; [reflexivity |]. rewrite IH. f_equal.
  destruct c as [[] [] [] [] [] [] [] []]; reflexivity.
Qed.

Lemma slashify_idem (s : string) : slashify (slashify s) = slashify s.
Proof.
  induction s as [| c s IH]; simpl; [reflexivity |]. rewrite IH. f_equal.
  destruct (Ascii.eqb_spec c (ascii_of_nat 92)); [reflexivity |].
  destruct (Ascii.eqb_spec c (ascii_of_nat 92)); [congruence | reflexivity].
Qed.

Lemma normalise_path_eq (file_path : string) :
  normalise_path file_path = slashify (Py.lower file_path).
Proof. unfold normalise_path. apply replace_backslash. Qed.

(** X20: the locale-path rule reads the path only up to the case of its
    letters and the direction of its separators: it gives the same issues
    for a path, for its lower-case form, and for the path with every
    backslash written as a slash. *)
Theorem X20_language_rule_path_insensitive (soup : Soup) (file_path : string)
  (raw_lines : list string) :
  validate_language_consistency soup (Py.lower file_path) raw_lines
  = validate_language_consistency soup file_path raw_lines
  /\ validate_language_consistency soup (slashify file_path) raw_lines
     = validate_language_consistency soup file_path raw_lines.
Proof.
  unfold validate_language_consistency, expected_language.
  rewrite !normalise_path_eq, lower_idem, lower_slashify, slashify_idem.
  repeat split; reflexivity.
Qed.
